(** * Books routes: request validation, query execution and response formatting

    A shallow embedding of the two handlers of [booksRouter]
    ([GET /get_by_rating/:rating] and
    [DELETE /books/delete_by_range/:min/:max]) and of [formatBooks],
    together with the properties the specification states about them. *)

From Stdlib Require Import ZArith QArith Qcanon Qround Ascii String Lia.
From stdpp Require Import base tactics option numbers list strings gmap fin_maps.

Set Warnings "-register-all".

Local Open Scope string_scope.
Local Open Scope Z_scope.

(** ** JavaScript values as the handlers see them *)

(** A value of [request.query] as Express's query parser produces it: a
    string, an array, or a nested plain object (one that keeps the
    [toString] it inherits).  The handlers cast it with [as string], which
    checks nothing at run time.  A key that is absent reads as [undefined],
    which is [None] below. *)
Inductive QueryValue : Type :=
| QString (s : string)
| QArray (items : list QueryValue)
| QObject (fields : list (string * QueryValue)).

(** The result of [parseInt], a double-precision number: [NaN], a finite
    number, which is always an integer here and is kept as its exact value,
    or an infinity.  Not every integer is such a number: above 2^53 only
    the integers with 53 significant bits are. *)
Inductive Number : Type :=
| NaN
| Int (z : Z)
| Infinity (negative : bool).

(** A cell of a row object returned by the pool, and a field of the public
    [IBook] view (the TypeScript field types are not checked at run time). *)
Inductive JSValue : Type :=
| JSUndefined
| JSNull
| JSNumber (q : Qc)
| JSString (s : string).

(** An element of the [values] array handed to [pool.query]. *)
Inductive Param : Type :=
| PNumber (n : Number)
| PQuery (v : option QueryValue).

Module JS.

(** Truthiness, so that [!v] is [negb (truthy v)]: among the values of
    [request.query] only [undefined] and the empty string are falsy. *)
Definition truthy (v : option QueryValue) : bool :=
  match v with
  | None => false
  | Some (QString EmptyString) => false
  | Some _ => true
  end.

(** [Array.prototype.join(",")] on strings already converted. *)
Fixpoint join_comma (l : list string) : string :=
  match l with
  | [] => ""
  | [s] => s
  | s :: rest => s ++ "," ++ join_comma rest
  end.

(** [ToString] on a defined query value: a string is itself, an array is
    the comma-joined conversion of its items, a plain object is
    ["[object Object]"]. *)
Fixpoint ToString_defined (v : QueryValue) : string :=
  match v with
  | QString s => s
  | QArray items => join_comma (map ToString_defined items)
  | QObject _ => "[object Object]"
  end.

Definition ToString (v : option QueryValue) : string :=
  match v with
  | None => "undefined"
  | Some d => ToString_defined d
  end.

(** The code units [parseInt] strips as leading white space, among the
    code units 0..255 that a [string] here holds: TAB, LF, VT, FF, CR, SP
    and NBSP. *)
Definition is_white_space (c : ascii) : bool :=
  let n := Z.of_nat (nat_of_ascii c) in
  ((9 <=? n) && (n <=? 13)) || (n =? 32) || (n =? 160).

Fixpoint trim_start (s : string) : string :=
  match s with
  | String c rest => if is_white_space c then trim_start rest else s
  | EmptyString => EmptyString
  end.

(** The value of [c] as a digit in radix 10 or 16, if it is one. *)
Definition digit_value (radix : Z) (c : ascii) : option Z :=
  let n := Z.of_nat (nat_of_ascii c) in
  if (48 <=? n) && (n <=? 57) then Some (n - 48)
  else if radix =? 16 then
    if (97 <=? n) && (n <=? 102) then Some (n - 87)
    else if (65 <=? n) && (n <=? 70) then Some (n - 55)
    else None
  else None.

(** The integer denoted by the longest prefix of radix digits; [acc] is
    [None] until a first digit has been read. *)
Fixpoint parse_digits (radix : Z) (acc : option Z) (s : string) : option Z :=
  match s with
  | String c rest =>
      match digit_value radix c with
      | Some d => parse_digits radix (Some (radix * default 0 acc + d)) rest
      | None => acc
      end
  | EmptyString => acc
  end.

(** A leading [-] or [+] is taken off; [-] makes the sign negative. *)
Definition read_sign (s : string) : Z * string :=
  match s with
  | String c rest =>
      if Ascii.eqb c "-" then (-1, rest)
      else if Ascii.eqb c "+" then (1, rest)
      else (1, s)
  | EmptyString => (1, s)
  end.

(** With no radix argument, a leading [0x] or [0X] is taken off and selects
    radix 16; otherwise the radix is 10. *)
Definition read_radix (s : string) : Z * string :=
  match s with
  | String c1 (String c2 rest) =>
      if Ascii.eqb c1 "0" && (Ascii.eqb c2 "x" || Ascii.eqb c2 "X")
      then (16, rest) else (10, s)
  | _ => (10, s)
  end.

(** The double nearest to the natural number [m], ties going to the even
    significand: below 2^53 it is [m]; above, [m] is cut to its 53 leading
    bits and rounded on the bits cut off. *)
Definition round_to_53_bits (m : Z) : Z :=
  if Z.log2 m <? 53 then m
  else
    let cut := Z.log2 m - 52 in
    let significand := Z.shiftr m cut in
    let low := Z.land m (Z.ones cut) in
    let half := Z.shiftl 1 (cut - 1) in
    let up := (half <? low) || ((low =? half) && Z.odd significand) in
    Z.shiftl (if up then significand + 1 else significand) cut.

(** The number value of the mathematical integer [z]: rounded to the
    nearest double, and an infinity from 2^1024 on. *)
Definition to_number (z : Z) : Number :=
  let magnitude := round_to_53_bits (Z.abs z) in
  if 1024 <=? Z.log2 magnitude then Infinity (z <? 0)
  else Int (Z.sgn z * magnitude).

(** [parseInt(string)] with no radix argument: strip leading white space,
    read a sign, read a radix prefix, read the longest run of digits and
    ignore whatever follows; [NaN] when there is no digit, otherwise the
    number value of the integer read. *)
Definition parseInt_string (s : string) : Number :=
  let '(sign, s2) := read_sign (trim_start s) in
  let '(radix, s3) := read_radix s2 in
  match parse_digits radix None s3 with
  | Some m => to_number (sign * m)
  | None => NaN
  end.

Definition parseInt (v : option QueryValue) : Number :=
  parseInt_string (ToString v).

Definition isNaN (n : Number) : bool :=
  match n with NaN => true | _ => false end.

(** [a < b] and [a > b] on numbers: false as soon as one side is [NaN];
    the negative infinity is below, the positive infinity above, every
    finite number. *)
Definition lt (a b : Number) : bool :=
  match a, b with
  | Int x, Int y => x <? y
  | Infinity true, Int _ => true
  | Infinity true, Infinity false => true
  | Int _, Infinity false => true
  | _, _ => false
  end.

Definition gt (a b : Number) : bool := lt b a.

End JS.

(** ** Data model *)

(** A stored row as [pool.query] returns it in [result.rows]: an object
    from column names to cells.  Reading a column the object does not have
    gives [undefined]. *)
Abbreviation Row := (gmap string JSValue).

Definition field (book : Row) (name : string) : JSValue :=
  default JSUndefined (book !! name).

Record IRatings : Type := {
  average : JSValue;
  count : JSValue;
  rating_1 : JSValue;
  rating_2 : JSValue;
  rating_3 : JSValue;
  rating_4 : JSValue;
  rating_5 : JSValue
}.

Record IUrlIcon : Type := {
  large : JSValue;
  small : JSValue
}.

Record IBook : Type := {
  isbn13 : JSValue;
  authors : JSValue;
  publication : JSValue;
  original_title : JSValue;
  title : JSValue;
  ratings : IRatings;
  icons : IUrlIcon
}.

(** The arrow function that [formatBooks] maps over [books]. *)
Definition formatBook (book : Row) : IBook :=
  {| isbn13 := field book "isbn13";
     authors := field book "authors";
     publication := field book "publication_year";
     original_title := field book "original_title";
     title := field book "title";
     ratings :=
       {| average := field book "rating_avg";
          count := field book "rating_count";
          rating_1 := field book "rating_1_star";
          rating_2 := field book "rating_2_star";
          rating_3 := field book "rating_3_star";
          rating_4 := field book "rating_4_star";
          rating_5 := field book "rating_5_star" |};
     icons :=
       {| large := field book "image_url";
          small := field book "image_small_url" |} |}.

Definition formatBooks (books : list Row) : list IBook :=
  map formatBook books.

(** ** Requests, responses and the pool interface *)

(** The parts of an Express request the routes can read: the path
    parameters bound by the route pattern ([request.params]) and the parsed
    query string ([request.query]). *)
Record Request : Type := {
  params : gmap string string;
  query : gmap string QueryValue
}.

(** The JSON bodies the handlers send. *)
Inductive Body : Type :=
| MessageBody (message : string)
| BooksBody (books : list IBook)
| DeletedBody (message : string) (deletedCount : nat).

(** [response.status(code).send(body)]; [response.send(body)] alone leaves
    the status at 200. *)
Record Response : Type := {
  status : Z;
  body : Body
}.

(** What [pool.query] resolves with, and what it rejects with. *)
Record QueryResult : Type := {
  rows : list Row;
  rowCount : nat
}.

Inductive PgError : Type :=
| DatabaseError (detail : string).

Inductive Settled : Type :=
| Fulfilled (result : QueryResult)
| Rejected (error : PgError).

(** A line written with [console.error]. *)
Inductive ConsoleLine : Type :=
| ConsoleText (text : string)
| ConsoleError (error : PgError).

(** What a callback of the promise chain does: it sends one response and
    may write to the console. *)
Record Reply : Type := {
  response : Response;
  console : list ConsoleLine
}.

(** What a handler does when it is called: either it sends a response and
    returns, or it calls [pool.query(theQuery, values)] once and installs a
    [then] and a [catch] callback on the promise. *)
Inductive Handler : Type :=
| Respond (r : Response)
| AwaitQuery (theQuery : string) (values : list Param)
             (on_then : QueryResult -> Reply) (on_catch : PgError -> Reply).

(** ** The route handlers *)

Definition select_by_rating : string :=
  "SELECT * FROM books WHERE FLOOR(rating_avg) = $1".

Definition delete_in_range : string :=
  "DELETE FROM books WHERE publication_year >= $1 AND publication_year <= $2".

Definition server_error : Response :=
  {| status := 500; body := MessageBody "Server error - contact support" |}.

(** [booksRouter.get('/get_by_rating/:rating', ...)] *)
Definition get_by_rating (request : Request) : Handler :=
  if negb (JS.truthy (query request !! "rating")) then
    Respond {| status := 400; body := MessageBody "Rating parameter is required." |}
  else
    let rating := JS.parseInt (query request !! "rating") in
    if JS.isNaN rating || JS.lt rating (Int 1) || JS.gt rating (Int 5) then
      Respond {| status := 400;
                 body := MessageBody "Invalid rating parameter. Please specify a rating between 1 and 5." |}
    else
      let theQuery := select_by_rating in
      let values := [PNumber rating] in
      AwaitQuery theQuery values
        (fun result =>
           if (length (rows result) =? 0)%nat then
             {| response := {| status := 404;
                               body := MessageBody "No books found with that rating." |};
                console := [] |}
           else
             {| response := {| status := 200;
                               body := BooksBody (formatBooks (rows result)) |};
                console := [] |})
        (fun error =>
           {| response := server_error;
              console := [ConsoleText "DB Query error on GET /book_by_rating";
                          ConsoleError error] |}).

(** [booksRouter.delete('/books/delete_by_range/:min/:max', ...)] *)
Definition delete_by_range (request : Request) : Handler :=
  let theQuery := delete_in_range in
  let values := [PQuery (query request !! "min"); PQuery (query request !! "max")] in
  let min := JS.parseInt (query request !! "min") in
  let max := JS.parseInt (query request !! "max") in
  if JS.isNaN min || JS.isNaN max || JS.gt min max then
    Respond {| status := 400;
               body := MessageBody "Invalid date parameters. Please specify a min and max publication year. min must be less than max." |}
  else
    AwaitQuery theQuery values
      (fun result =>
         {| response := {| status := 200;
                           body := DeletedBody "Books successfully deleted" (rowCount result) |};
            console := [] |})
      (fun error =>
         {| response := server_error;
            console := [ConsoleText "DB Query error on DELETE /delete_by_range";
                        ConsoleError error] |}).

(** ** The connection pool *)

(** The table [books] the pool works on. *)
Abbreviation Table := (list Row).

(** A pool: one [query(sql, params)] operation that settles with a result
    or an error and may change the stored table. *)
Definition Pool : Type := string -> list Param -> Table -> Settled * Table.

(** One request served against a pool: the handler runs, and when it
    issued a query the pool settles it and the matching callback replies. *)
Definition serve (pool : Pool) (h : Handler) (books : Table) : Reply * Table :=
  match h with
  | Respond r => ({| response := r; console := [] |}, books)
  | AwaitQuery theQuery values on_then on_catch =>
      match pool theQuery values books with
      | (Fulfilled result, books') => (on_then result, books')
      | (Rejected error, books') => (on_catch error, books')
      end
  end.

(** The database behind the pool.  Modelled from the spec: neither the
    pool of [core/utilities] nor the database is under [src/]; sections 4.2
    and 6 say what the two statements do.  How the database reads a text
    parameter as an integer is not in the spec: it is an argument of the
    model ([query_with]), and [integer_literal] is the reading of
    PostgreSQL 16 and later for a 32-bit integer column. *)
Module Pg.

(** What the database makes of a text where it expects an integer. *)
Inductive Parsed : Type :=
| Refused (error : PgError)
| Accepted (z : Z).

(** How the database reads a bound parameter where the statement compares
    it with an integer: the statement fails, the parameter is SQL NULL, or
    it is an integer. *)
Inductive Reading : Type :=
| Fails (error : PgError)
| Null
| Value (z : Z).

Definition invalid_input : PgError :=
  DatabaseError "invalid input syntax for type integer".

Definition out_of_range : PgError :=
  DatabaseError "value is out of range for type integer".

Definition wrong_arity : PgError :=
  DatabaseError "bind message supplies the wrong number of parameters".

Definition unknown_statement : PgError :=
  DatabaseError "syntax error".

(** White space the database skips around an integer literal. *)
Definition is_space (c : ascii) : bool :=
  let n := Z.of_nat (nat_of_ascii c) in
  ((9 <=? n) && (n <=? 13)) || (n =? 32).

Fixpoint skip_spaces (s : string) : string :=
  match s with
  | String c rest => if is_space c then skip_spaces rest else s
  | EmptyString => EmptyString
  end.

(** A leading [-] or [+] is taken off; the flag says the sign is [-]. *)
Definition take_sign (s : string) : bool * string :=
  match s with
  | String c rest =>
      if Ascii.eqb c "-" then (true, rest)
      else if Ascii.eqb c "+" then (false, rest)
      else (false, s)
  | EmptyString => (false, s)
  end.

(** A leading [0x], [0o] or [0b], in either case, is taken off and selects
    radix 16, 8 or 2; otherwise the radix is 10. *)
Definition take_radix (s : string) : Z * string :=
  match s with
  | String c1 (String c2 rest) =>
      if Ascii.eqb c1 "0" then
        if Ascii.eqb c2 "x" || Ascii.eqb c2 "X" then (16, rest)
        else if Ascii.eqb c2 "o" || Ascii.eqb c2 "O" then (8, rest)
        else if Ascii.eqb c2 "b" || Ascii.eqb c2 "B" then (2, rest)
        else (10, s)
      else (10, s)
  | _ => (10, s)
  end.

(** The value of [c] as a digit in the radix, if it is one. *)
Definition digit_in (radix : Z) (c : ascii) : option Z :=
  let n := Z.of_nat (nat_of_ascii c) in
  let value :=
    if (48 <=? n) && (n <=? 57) then n - 48
    else if (97 <=? n) && (n <=? 102) then n - 87
    else if (65 <=? n) && (n <=? 70) then n - 55
    else radix in
  if value <? radix then Some value else None.

(** The digits of the literal.  Single underscores may separate digits:
    each must be followed by a digit, and in radix 10 none may come first.
    Reading stops at the first other character, after at least one digit
    ([first] says none has been read).  A value that passes 2^31 before the
    last digit is out of range at once. *)
Fixpoint read_digits (radix : Z) (first : bool) (acc : Z) (s : string)
    : PgError + Z * string :=
  match s with
  | String c rest =>
      match digit_in radix c with
      | Some d =>
          if 2 ^ 31 / radix <? acc then inl out_of_range
          else read_digits radix false (radix * acc + d) rest
      | None =>
          if Ascii.eqb c "_" then
            if (radix =? 10) && first then inl invalid_input
            else
              match rest with
              | String c' _ =>
                  match digit_in radix c' with
                  | Some _ => read_digits radix false acc rest
                  | None => inl invalid_input
                  end
              | EmptyString => inl invalid_input
              end
          else if first then inl invalid_input
          else inr (acc, s)
      end
  | EmptyString => if first then inl invalid_input else inr (acc, s)
  end.

(** Integer input for a 32-bit column: optional white space, an optional
    sign, an optional radix prefix, digits, optional white space, and
    nothing else; the value must lie in -2^31 .. 2^31 - 1. *)
Definition integer_literal (s : string) : Parsed :=
  let '(negative, s1) := take_sign (skip_spaces s) in
  let '(radix, s2) := take_radix s1 in
  match read_digits radix true 0 s2 with
  | inl error => Refused error
  | inr (m, rest) =>
      if decide (skip_spaces rest = EmptyString) then
        let z := if negative then - m else m in
        if (- 2 ^ 31 <=? z) && (z <=? 2 ^ 31 - 1) then Accepted z
        else Refused out_of_range
      else Refused invalid_input
  end.

(** The driver sends [undefined] as NULL, a number as its decimal text and
    a string as it is, which the database reads with [input]; an array or
    an object is sent as text that starts with a brace, which is never an
    integer literal. *)
Definition integer_param_with (input : string -> Parsed) (p : Param) : Reading :=
  match p with
  | PNumber (Int z) => Value z
  | PNumber _ => Fails invalid_input
  | PQuery None => Null
  | PQuery (Some (QString s)) =>
      match input s with
      | Accepted z => Value z
      | Refused error => Fails error
      end
  | PQuery (Some (QArray _)) => Fails invalid_input
  | PQuery (Some (QObject _)) => Fails invalid_input
  end.

(** [FLOOR(rating_avg) = r] on a row; a cell that is not a number (NULL or
    absent) satisfies no comparison. *)
Definition floor_rating_is (r : Z) (book : Row) : bool :=
  match book !! "rating_avg" with
  | Some (JSNumber q) => Qfloor q =? r
  | _ => false
  end.

(** [publication_year >= lo AND publication_year <= hi] on a row. *)
Definition year_within (lo hi : Z) (book : Row) : bool :=
  match book !! "publication_year" with
  | Some (JSNumber q) =>
      bool_decide (Qc_of_Z lo <= q)%Qc && bool_decide (q <= Qc_of_Z hi)%Qc
  | _ => false
  end.

(** Modelled from the spec: the connection pool [pool] of
    [core/utilities] and the database behind it are not under [src/].
    Section 6 gives its interface, [query(sql, params) -> {rows, rowCount}],
    and section 4.2 what the two statements do: the SELECT returns the rows
    with [FLOOR(rating_avg)] equal to the parameter, the DELETE removes the
    rows with [publication_year] within the two parameters, bounds
    included, and returns how many it removed.  A parameter the database
    cannot read fails the statement, the first such parameter deciding the
    error.  [input] is the database's reading of a text as an integer. *)
Definition query_with (input : string -> Parsed) : Pool :=
  fun sql values books =>
    if decide (sql = select_by_rating) then
      match values with
      | [p] =>
          match integer_param_with input p with
          | Fails error => (Rejected error, books)
          | Null => (Fulfilled {| rows := []; rowCount := 0 |}, books)
          | Value r =>
              let found := filter (floor_rating_is r) books in
              (Fulfilled {| rows := found; rowCount := length found |}, books)
          end
      | _ => (Rejected wrong_arity, books)
      end
    else if decide (sql = delete_in_range) then
      match values with
      | [p1; p2] =>
          match integer_param_with input p1, integer_param_with input p2 with
          | Fails error, _ => (Rejected error, books)
          | _, Fails error => (Rejected error, books)
          | Value lo, Value hi =>
              let gone := filter (year_within lo hi) books in
              (Fulfilled {| rows := []; rowCount := length gone |},
               filter (fun book => ¬ year_within lo hi book) books)
          | _, _ => (Fulfilled {| rows := []; rowCount := 0 |}, books)
          end
      | _ => (Rejected wrong_arity, books)
      end
    else (Rejected unknown_statement, books).

(** The pool over a database that reads text parameters with
    [integer_literal]. *)
Definition query : Pool := query_with integer_literal.

End Pg.

(** ** The two routes and their validation, as predicates on a request *)

Inductive Route : Type :=
| GetByRating
| DeleteByRange.

Definition handler (route : Route) : Request -> Handler :=
  match route with
  | GetByRating => get_by_rating
  | DeleteByRange => delete_by_range
  end.

(** The request passes the checks of [get_by_rating] with rating [r]. *)
Definition valid_rating (request : Request) (r : Z) : Prop :=
  JS.truthy (query request !! "rating") = true ∧
  JS.parseInt (query request !! "rating") = Int r ∧
  1 <= r <= 5.

(** The request passes the check of [delete_by_range] with bounds [lo]
    and [hi]. *)
Definition valid_range (request : Request) (lo hi : Z) : Prop :=
  JS.parseInt (query request !! "min") = Int lo ∧
  JS.parseInt (query request !! "max") = Int hi ∧
  lo <= hi.

(** ** Calls in flight *)

(** The life of one call: received and not yet handled; validated, with its
    query in flight; or answered. *)
Inductive Call : Type :=
| Received (request : Request)
| Awaiting (theQuery : string) (values : list Param)
           (on_then : QueryResult -> Reply) (on_catch : PgError -> Reply)
| Answered (reply : Reply).

Record System : Type := {
  table : Table;
  calls : list Call
}.

(** Running the synchronous part of a handler. *)
Definition start (h : Handler) : Call :=
  match h with
  | Respond r => Answered {| response := r; console := [] |}
  | AwaitQuery theQuery values on_then on_catch =>
      Awaiting theQuery values on_then on_catch
  end.

(** The callback that runs when the promise settles. *)
Definition settle (outcome : Settled)
    (on_then : QueryResult -> Reply) (on_catch : PgError -> Reply) : Reply :=
  match outcome with
  | Fulfilled result => on_then result
  | Rejected error => on_catch error
  end.

(** The event loop, for the calls alone: it picks any call that can move.
    A received call runs its handler up to the first await; a call whose
    query is in flight has it executed by the pool, in one step, and
    answers.  Calls interleave in any order; nothing else writes to the
    table. *)
Inductive step (pool : Pool) (route : Request -> Handler) : System -> System -> Prop :=
| step_handle (s : System) (i : nat) (request : Request) :
    calls s !! i = Some (Received request) ->
    step pool route s
      {| table := table s;
         calls := <[i := start (route request)]> (calls s) |}
| step_settle (s : System) (i : nat) theQuery values on_then on_catch :
    calls s !! i = Some (Awaiting theQuery values on_then on_catch) ->
    step pool route s
      {| table := (pool theQuery values (table s)).2;
         calls := <[i := Answered (settle (pool theQuery values (table s)).1
                                          on_then on_catch)]> (calls s) |}.

(** All calls have just been received. *)
Definition arrived (books : Table) (requests : list Request) : System :=
  {| table := books; calls := Received <$> requests |}.

(** The [deletedCount] a call has reported, 0 while it has reported none. *)
Definition reported (c : Call) : nat :=
  match c with
  | Answered reply =>
      match body (response reply) with
      | DeletedBody _ n => n
      | _ => 0%nat
      end
  | _ => 0%nat
  end.

(** A call in flight belongs to one of the requests: it still holds the
    request, or it holds the query that the handler issued for it. *)
Definition originates (route : Request -> Handler) (requests : list Request)
    (c : Call) : Prop :=
  match c with
  | Received request => request ∈ requests
  | Awaiting theQuery values on_then on_catch =>
      ∃ request, request ∈ requests ∧
                 route request = AwaitQuery theQuery values on_then on_catch
  | Answered _ => True
  end.

(** ** Readings of the specification's words *)

(** Following the specification's word "integer" for a rating: the text
    spells an integer when it is an optional minus sign followed by decimal
    digits and nothing else. *)
Definition integer_spelling (s : string) : bool :=
  let digits :=
    match s with
    | String c rest => if Ascii.eqb c "-" then rest else s
    | EmptyString => s
    end in
  negb (String.eqb digits "") &&
  forallb (fun c => let n := Z.of_nat (nat_of_ascii c) in (48 <=? n) && (n <=? 57))
          (list_ascii_of_string digits).

(** Following the specification's word "numeric" for a bound: the text
    spells a number when it is an optional minus sign followed by decimal
    digits with at most one decimal point among them, and nothing else. *)
Definition numeric_spelling (s : string) : bool :=
  let unsigned :=
    match s with
    | String c rest => if Ascii.eqb c "-" then rest else s
    | EmptyString => s
    end in
  let is_digit c := let n := Z.of_nat (nat_of_ascii c) in (48 <=? n) && (n <=? 57) in
  let characters := list_ascii_of_string unsigned in
  forallb (fun c => is_digit c || Ascii.eqb c ".") characters &&
  existsb is_digit characters &&
  (length (filter (fun c => Ascii.eqb c ".") characters) <=? 1)%nat.

(** ** Vocabulary for the properties of the routes *)

(** The request passes the check of [delete_by_range]: both bounds are
    numbers and [min > max] does not hold. *)
Definition range_passes (request : Request) : Prop :=
  JS.isNaN (JS.parseInt (query request !! "min")) = false ∧
  JS.isNaN (JS.parseInt (query request !! "max")) = false ∧
  JS.gt (JS.parseInt (query request !! "min"))
        (JS.parseInt (query request !! "max")) = false.

Definition is_decimal_digit (c : ascii) : bool :=
  let n := Z.of_nat (nat_of_ascii c) in (48 <=? n) && (n <=? 57).

(** A year written the plain way: decimal digits and nothing else. *)
Definition plain_digits (s : string) : bool :=
  negb (String.eqb s "") && forallb is_decimal_digit (list_ascii_of_string s).

(** The integer that decimal digits spell. *)
Definition decimal_value (s : string) : Z :=
  fold_left (fun acc c => 10 * acc + (Z.of_nat (nat_of_ascii c) - 48))
            (list_ascii_of_string s) 0.

(** The columns of a stored row that [formatBooks] reads. *)
Definition book_columns : list string :=
  ["isbn13"; "authors"; "publication_year"; "original_title"; "title";
   "rating_avg"; "rating_count"; "rating_1_star"; "rating_2_star";
   "rating_3_star"; "rating_4_star"; "rating_5_star";
   "image_url"; "image_small_url"].

Definition is_answered (c : Call) : bool :=
  match c with
  | Answered _ => true
  | _ => false
  end.

(** ** Sample data *)

Definition stored_row (isbn : Z) (author name original : string)
    (year : Z) (avg : Qc) (n n1 n2 n3 n4 n5 : Z) (image thumb : string) : Row :=
  list_to_map
    [("isbn13", JSNumber (Qc_of_Z isbn));
     ("authors", JSString author);
     ("title", JSString name);
     ("original_title", JSString original);
     ("publication_year", JSNumber (Qc_of_Z year));
     ("rating_avg", JSNumber avg);
     ("rating_count", JSNumber (Qc_of_Z n));
     ("rating_1_star", JSNumber (Qc_of_Z n1));
     ("rating_2_star", JSNumber (Qc_of_Z n2));
     ("rating_3_star", JSNumber (Qc_of_Z n3));
     ("rating_4_star", JSNumber (Qc_of_Z n4));
     ("rating_5_star", JSNumber (Qc_of_Z n5));
     ("image_url", JSString image);
     ("image_small_url", JSString thumb)].

Definition hunger_games : Row :=
  stored_row 9780439023480 "Suzanne Collins" "The Hunger Games" "The Hunger Games"
    2008 (Q2Qc (434 # 100)) 4780653 66715 127936 560092 1481305 2706317
    "https://images.example/2767052.jpg" "https://images.example/2767052s.jpg".

Definition jurassic_park : Row :=
  stored_row 9780345370770 "Michael Crichton" "Jurassic Park" "Jurassic Park"
    1990 (Q2Qc (396 # 100)) 447833 7624 20981 101537 171176 146515
    "https://images.example/6424171.jpg" "https://images.example/6424171s.jpg".

Definition fight_club : Row :=
  stored_row 9780393327340 "Chuck Palahniuk" "Fight Club" "Fight Club"
    1996 (Q2Qc (420 # 100)) 358396 6320 12851 50002 123196 166027
    "https://images.example/5759.jpg" "https://images.example/5759s.jpg".

Definition sample_books : Table := [hunger_games; jurassic_park; fight_club].


Definition request_with (q : list (string * QueryValue)) : Request :=
  {| params := ∅; query := list_to_map q |}.

(** * Properties *)

(** ** Evaluation of the model on small inputs *)

Example parseInt_plain : JS.parseInt (Some (QString "3")) = Int 3.
Proof. reflexivity. Qed.

Example parseInt_letters : JS.parseInt (Some (QString "abc")) = NaN.
Proof. reflexivity. Qed.

Example parseInt_fraction : JS.parseInt (Some (QString "3.5")) = Int 3.
Proof. reflexivity. Qed.

Example parseInt_hex : JS.parseInt (Some (QString " -0x1F")) = Int (-31).
Proof. reflexivity. Qed.

Example parseInt_array : JS.parseInt (Some (QArray [QString "4"; QString "9"])) = Int 4.
Proof. reflexivity. Qed.

Example parseInt_undefined : JS.parseInt None = NaN.
Proof. reflexivity. Qed.

Example parseInt_signs :
  JS.parseInt (Some (QString "-7")) = Int (-7) ∧
  JS.parseInt (Some (QString "+7")) = Int 7 ∧
  JS.parseInt (Some (QString "- 7")) = NaN ∧
  JS.parseInt (Some (QString "0x")) = NaN ∧
  JS.parseInt (Some (QString "010")) = Int 10 ∧
  JS.parseInt (Some (QString "")) = NaN ∧
  JS.parseInt (Some (QObject [("a", QString "1")])) = NaN.
Proof. repeat split. Qed.

(** Above 2^53 [parseInt] rounds: to the even neighbour on a tie, and to
    an infinity from 2^1024 on. *)
Example parseInt_rounds :
  JS.parseInt (Some (QString "9007199254740992")) = Int 9007199254740992 ∧
  JS.parseInt (Some (QString "9007199254740993")) = Int 9007199254740992 ∧
  JS.parseInt (Some (QString "9007199254740995")) = Int 9007199254740996 ∧
  JS.parseInt (Some (QString "-9007199254740993")) = Int (-9007199254740992) ∧
  JS.parseInt (Some (QString "0b1")) = Int 0 ∧
  JS.to_number (2 ^ 1024 - 2 ^ 970 - 1) = Int (2 ^ 1024 - 2 ^ 971) ∧
  JS.to_number (2 ^ 1024 - 2 ^ 970) = Infinity false ∧
  JS.to_number (- 10 ^ 400) = Infinity true.
Proof. repeat split; vm_compute; reflexivity. Qed.

Example integer_spelling_samples :
  integer_spelling "3" = true ∧ integer_spelling "-12" = true ∧
  integer_spelling "3.5" = false ∧ integer_spelling "" = false ∧
  integer_spelling "-" = false ∧ integer_spelling "3abc" = false.
Proof. repeat split. Qed.

Example numeric_spelling_samples :
  numeric_spelling "1990" = true ∧ numeric_spelling "-3.5" = true ∧
  numeric_spelling "1990abc" = false ∧ numeric_spelling "." = false ∧
  numeric_spelling "1.2.3" = false ∧ numeric_spelling "" = false.
Proof. repeat split. Qed.

Example integer_literal_samples :
  Pg.integer_literal " 1990 " = Pg.Accepted 1990 ∧
  Pg.integer_literal "-7" = Pg.Accepted (-7) ∧
  Pg.integer_literal "1_990" = Pg.Accepted 1990 ∧
  Pg.integer_literal "0x7C6" = Pg.Accepted 1990 ∧
  Pg.integer_literal "0b1" = Pg.Accepted 1 ∧
  Pg.integer_literal "0o_17" = Pg.Accepted 15 ∧
  Pg.integer_literal "2147483647" = Pg.Accepted 2147483647 ∧
  Pg.integer_literal "-2147483648" = Pg.Accepted (-2147483648).
Proof. repeat split. Qed.

Example integer_literal_refusals :
  Pg.integer_literal "1990abc" = Pg.Refused Pg.invalid_input ∧
  Pg.integer_literal "+ 7" = Pg.Refused Pg.invalid_input ∧
  Pg.integer_literal "19 90" = Pg.Refused Pg.invalid_input ∧
  Pg.integer_literal "   " = Pg.Refused Pg.invalid_input ∧
  Pg.integer_literal "_1" = Pg.Refused Pg.invalid_input ∧
  Pg.integer_literal "1__0" = Pg.Refused Pg.invalid_input ∧
  Pg.integer_literal "0x" = Pg.Refused Pg.invalid_input ∧
  Pg.integer_literal "1990.5" = Pg.Refused Pg.invalid_input ∧
  Pg.integer_literal "2147483648" = Pg.Refused Pg.out_of_range ∧
  Pg.integer_literal "99999999999" = Pg.Refused Pg.out_of_range ∧
  Pg.integer_literal "99999999999abc" = Pg.Refused Pg.out_of_range.
Proof. repeat split. Qed.

(** ** Numbers *)

Lemma gt_Int (a b : Z) : JS.gt (Int a) (Int b) = true ↔ a > b.
Proof. unfold JS.gt. simpl. rewrite Z.ltb_lt. lia. Qed.

Lemma round_to_53_bits_small (m : Z) :
  0 <= m < 2 ^ 53 -> JS.round_to_53_bits m = m.
Proof.
  intros [H0 H]. unfold JS.round_to_53_bits.
  destruct (Z.ltb_spec (Z.log2 m) 53) as [|Hge]; [done|].
  destruct (decide (m = 0)) as [->|]; [done|].
  apply Z.log2_lt_pow2 in H; lia.
Qed.

(** An integer of at most 53 bits is a number as it stands. *)
Lemma to_number_small (z : Z) : Z.abs z < 2 ^ 53 -> JS.to_number z = Int z.
Proof.
  intros H. unfold JS.to_number.
  rewrite round_to_53_bits_small by lia.
  destruct (Z.leb_spec 1024 (Z.log2 (Z.abs z))) as [Hbig|_].
  - destruct (decide (Z.abs z = 0)) as [Hz|Hz]; [rewrite Hz in Hbig; simpl in Hbig; lia|].
    assert (Z.log2 (Z.abs z) < 53) by (apply Z.log2_lt_pow2; lia). lia.
  - f_equal. lia.
Qed.

(** ** The handlers, case by case *)

Section Handlers.

Variable request : Request.

Lemma get_by_rating_missing :
  JS.truthy (query request !! "rating") = false ->
  get_by_rating request =
    Respond {| status := 400; body := MessageBody "Rating parameter is required." |}.
Proof. intros H. unfold get_by_rating. by rewrite H. Qed.

Lemma get_by_rating_invalid :
  JS.truthy (query request !! "rating") = true ->
  JS.isNaN (JS.parseInt (query request !! "rating"))
  || JS.lt (JS.parseInt (query request !! "rating")) (Int 1)
  || JS.gt (JS.parseInt (query request !! "rating")) (Int 5) = true ->
  get_by_rating request =
    Respond {| status := 400;
               body := MessageBody "Invalid rating parameter. Please specify a rating between 1 and 5." |}.
Proof. intros Ht H. unfold get_by_rating. by rewrite Ht, H. Qed.

Lemma get_by_rating_NaN :
  JS.truthy (query request !! "rating") = true ->
  JS.parseInt (query request !! "rating") = NaN ->
  get_by_rating request =
    Respond {| status := 400;
               body := MessageBody "Invalid rating parameter. Please specify a rating between 1 and 5." |}.
Proof. intros Ht Hp. apply get_by_rating_invalid; [done|]. by rewrite Hp. Qed.

Lemma get_by_rating_out_of_range (r : Z) :
  JS.truthy (query request !! "rating") = true ->
  JS.parseInt (query request !! "rating") = Int r ->
  r < 1 ∨ 5 < r ->
  get_by_rating request =
    Respond {| status := 400;
               body := MessageBody "Invalid rating parameter. Please specify a rating between 1 and 5." |}.
Proof.
  intros Ht Hp Hr. apply get_by_rating_invalid; [done|]. rewrite Hp.
  unfold JS.gt. simpl.
  destruct (Z.ltb_spec r 1) as [|Hge]; [done|].
  destruct (Z.ltb_spec 5 r) as [|Hle]; [done|]. lia.
Qed.

Lemma get_by_rating_infinite (negative : bool) :
  JS.truthy (query request !! "rating") = true ->
  JS.parseInt (query request !! "rating") = Infinity negative ->
  get_by_rating request =
    Respond {| status := 400;
               body := MessageBody "Invalid rating parameter. Please specify a rating between 1 and 5." |}.
Proof.
  intros Ht Hp. apply get_by_rating_invalid; [done|]. rewrite Hp.
  by destruct negative.
Qed.

Lemma get_by_rating_valid (r : Z) :
  valid_rating request r ->
  get_by_rating request =
    AwaitQuery select_by_rating [PNumber (Int r)]
      (fun result =>
         if (length (rows result) =? 0)%nat then
           {| response := {| status := 404;
                             body := MessageBody "No books found with that rating." |};
              console := [] |}
         else
           {| response := {| status := 200;
                             body := BooksBody (formatBooks (rows result)) |};
              console := [] |})
      (fun error =>
         {| response := server_error;
            console := [ConsoleText "DB Query error on GET /book_by_rating";
                        ConsoleError error] |}).
Proof.
  intros (Ht & Hp & Hlo & Hhi). unfold get_by_rating. rewrite Ht, Hp.
  unfold JS.gt. simpl.
  destruct (Z.ltb_spec r 1) as [|_]; [lia|].
  destruct (Z.ltb_spec 5 r) as [|_]; [lia|]. done.
Qed.

Lemma delete_by_range_invalid :
  JS.isNaN (JS.parseInt (query request !! "min")) = true ∨
  JS.isNaN (JS.parseInt (query request !! "max")) = true ∨
  JS.gt (JS.parseInt (query request !! "min")) (JS.parseInt (query request !! "max")) = true ->
  delete_by_range request =
    Respond {| status := 400;
               body := MessageBody "Invalid date parameters. Please specify a min and max publication year. min must be less than max." |}.
Proof.
  intros H. unfold delete_by_range.
  destruct (JS.isNaN (JS.parseInt (query request !! "min"))); [done|].
  destruct (JS.isNaN (JS.parseInt (query request !! "max"))); [done|].
  destruct (JS.gt _ _); [done|]. by destruct H as [?|[?|?]].
Qed.

Lemma delete_by_range_passes :
  range_passes request ->
  delete_by_range request =
    AwaitQuery delete_in_range
      [PQuery (query request !! "min"); PQuery (query request !! "max")]
      (fun result =>
         {| response := {| status := 200;
                           body := DeletedBody "Books successfully deleted" (rowCount result) |};
            console := [] |})
      (fun error =>
         {| response := server_error;
            console := [ConsoleText "DB Query error on DELETE /delete_by_range";
                        ConsoleError error] |}).
Proof. intros (Hmin & Hmax & Hgt). unfold delete_by_range. by rewrite Hmin, Hmax, Hgt. Qed.

Lemma valid_range_passes (lo hi : Z) : valid_range request lo hi -> range_passes request.
Proof.
  intros (Hmin & Hmax & Hle). unfold range_passes. rewrite Hmin, Hmax.
  split; [done|]. split; [done|].
  unfold JS.gt. simpl. apply Z.ltb_ge. lia.
Qed.

Lemma delete_by_range_valid (lo hi : Z) :
  valid_range request lo hi ->
  delete_by_range request =
    AwaitQuery delete_in_range
      [PQuery (query request !! "min"); PQuery (query request !! "max")]
      (fun result =>
         {| response := {| status := 200;
                           body := DeletedBody "Books successfully deleted" (rowCount result) |};
            console := [] |})
      (fun error =>
         {| response := server_error;
            console := [ConsoleText "DB Query error on DELETE /delete_by_range";
                        ConsoleError error] |}).
Proof. intros Hv. apply delete_by_range_passes. by apply (valid_range_passes lo hi). Qed.

(** Every request falls in one of the cases of each handler. *)
Lemma get_by_rating_cases :
  JS.truthy (query request !! "rating") = false ∨
  (JS.truthy (query request !! "rating") = true ∧
   (¬ ∃ r, valid_rating request r) ∧
   get_by_rating request =
     Respond {| status := 400;
                body := MessageBody "Invalid rating parameter. Please specify a rating between 1 and 5." |}) ∨
  ∃ r, valid_rating request r.
Proof.
  unfold valid_rating.
  destruct (JS.truthy (query request !! "rating")) eqn:Ht; [|by left].
  right. destruct (JS.parseInt (query request !! "rating")) as [|r|negative] eqn:Hp.
  - left. split; [done|]. split; [by intros (r & _ & ? & _)|].
    by apply get_by_rating_NaN.
  - destruct (decide (1 <= r <= 5)); [right; eauto|].
    left. split; [done|]. split.
    + intros (r' & _ & [= <-] & ?). lia.
    + apply (get_by_rating_out_of_range r); [done|done|lia].
  - left. split; [done|]. split; [by intros (r & _ & ? & _)|].
    by apply (get_by_rating_infinite negative).
Qed.

Lemma delete_by_range_cases :
  (JS.isNaN (JS.parseInt (query request !! "min")) = true ∨
   JS.isNaN (JS.parseInt (query request !! "max")) = true ∨
   JS.gt (JS.parseInt (query request !! "min")) (JS.parseInt (query request !! "max")) = true) ∨
  range_passes request.
Proof.
  unfold range_passes.
  destruct (JS.isNaN (JS.parseInt (query request !! "min"))); [left; by left|].
  destruct (JS.isNaN (JS.parseInt (query request !! "max"))); [left; right; by left|].
  destruct (JS.gt _ _); [left; right; by right|by right].
Qed.

End Handlers.

(** ** The response formatter *)

Lemma formatBooks_length (books : list Row) :
  length (formatBooks books) = length books.
Proof. unfold formatBooks. apply length_map. Qed.

Lemma formatBooks_lookup (books : list Row) (i : nat) :
  formatBooks books !! i = formatBook <$> books !! i.
Proof. unfold formatBooks. apply list_lookup_fmap. Qed.

(** C7: [formatBooks] maps the row at each position to the public book at
    the same position, and that book carries the row's cells over
    unchanged: [ratings.average] is [rating_avg], [icons.large] is
    [image_url], [icons.small] is [image_small_url], [publication] is
    [publication_year], and [isbn13], [authors], [title], [original_title],
    the rating count and the five per-star counts are the cells of the same
    name. *)
Theorem formatBooks_carries_cells (books : list Row) (i : nat) (book : Row) :
  books !! i = Some book ->
  length (formatBooks books) = length books ∧
  ∃ b : IBook,
    formatBooks books !! i = Some b ∧
    average (ratings b) = field book "rating_avg" ∧
    large (icons b) = field book "image_url" ∧
    small (icons b) = field book "image_small_url" ∧
    publication b = field book "publication_year" ∧
    isbn13 b = field book "isbn13" ∧
    authors b = field book "authors" ∧
    title b = field book "title" ∧
    original_title b = field book "original_title" ∧
    count (ratings b) = field book "rating_count" ∧
    rating_1 (ratings b) = field book "rating_1_star" ∧
    rating_2 (ratings b) = field book "rating_2_star" ∧
    rating_3 (ratings b) = field book "rating_3_star" ∧
    rating_4 (ratings b) = field book "rating_4_star" ∧
    rating_5 (ratings b) = field book "rating_5_star".
Proof.
  intros Hi. split; [apply formatBooks_length|].
  exists (formatBook book). rewrite formatBooks_lookup, Hi.
  repeat split.
Qed.

Lemma formatBooks_carries_cells_witness :
  sample_books !! 1%nat = Some jurassic_park ∧
  ∃ b : IBook,
    formatBooks sample_books !! 1%nat = Some b ∧
    average (ratings b) = JSNumber (Q2Qc (396 # 100)) ∧
    large (icons b) = JSString "https://images.example/6424171.jpg".
Proof.
  split; [reflexivity|].
  destruct (formatBooks_carries_cells sample_books 1 jurassic_park eq_refl)
    as (_ & b & Hb & Havg & Hlarge & _).
  exists b. split; [exact Hb|]. split.
  - rewrite Havg. reflexivity.
  - rewrite Hlarge. reflexivity.
Defined.

(** ** Outcomes of [get_by_rating] *)

(** C5: for a request that passes validation, when the query resolves with
    no row the handler answers 404 with the message "No books found with
    that rating.", and when it resolves with at least one row the handler
    answers 200 with [{ books }], the formatted rows.  The pool is
    arbitrary. *)
Theorem get_by_rating_found_or_404 (pool : Pool) (request : Request) (r : Z)
    (books books' : Table) (result : QueryResult) :
  valid_rating request r ->
  pool select_by_rating [PNumber (Int r)] books = (Fulfilled result, books') ->
  (rows result = [] ->
   response (serve pool (get_by_rating request) books).1 =
     {| status := 404; body := MessageBody "No books found with that rating." |}) ∧
  (rows result ≠ [] ->
   response (serve pool (get_by_rating request) books).1 =
     {| status := 200; body := BooksBody (formatBooks (rows result)) |}).
Proof.
  intros Hvalid Hpool.
  rewrite (get_by_rating_valid request r Hvalid). simpl. rewrite Hpool. simpl.
  split; intros Hrows.
  - by rewrite Hrows.
  - destruct (rows result); [done|]. done.
Qed.

Lemma get_by_rating_found_or_404_witness :
  response (serve Pg.query (get_by_rating (request_with [("rating", QString "2")]))
              sample_books).1 =
    {| status := 404; body := MessageBody "No books found with that rating." |} ∧
  response (serve Pg.query (get_by_rating (request_with [("rating", QString "3")]))
              sample_books).1 =
    {| status := 200; body := BooksBody (formatBooks [jurassic_park]) |}.
Proof.
  split.
  - refine (proj1 (get_by_rating_found_or_404 Pg.query
               (request_with [("rating", QString "2")]) 2 sample_books sample_books
               {| rows := []; rowCount := 0 |} _ _) _).
    + unfold valid_rating. split; [reflexivity|]. split; [reflexivity|lia].
    + reflexivity.
    + reflexivity.
  - refine (proj2 (get_by_rating_found_or_404 Pg.query
               (request_with [("rating", QString "3")]) 3 sample_books sample_books
               {| rows := [jurassic_park]; rowCount := 1 |} _ _) _).
    + unfold valid_rating. split; [reflexivity|]. split; [reflexivity|lia].
    + vm_compute. reflexivity.
    + discriminate.
Defined.

(** C2, as amended: when the [rating] query parameter is missing or empty,
    or [parseInt] finds no number at its start, or the number [parseInt]
    reads lies outside 1..5 (an integer below 1 or above 5, or an
    infinity), the handler answers 400 with a message body and issues no
    query, so that no pool touches the table. *)
Theorem get_by_rating_rejects (pool : Pool) (request : Request) (books : Table) :
  JS.truthy (query request !! "rating") = false ∨
  JS.parseInt (query request !! "rating") = NaN ∨
  (∃ r, JS.parseInt (query request !! "rating") = Int r ∧ (r < 1 ∨ 5 < r)) ∨
  (∃ negative, JS.parseInt (query request !! "rating") = Infinity negative) ->
  ∃ message : string,
    get_by_rating request = Respond {| status := 400; body := MessageBody message |} ∧
    serve pool (get_by_rating request) books =
      ({| response := {| status := 400; body := MessageBody message |}; console := [] |},
       books).
Proof.
  intros H.
  destruct (JS.truthy (query request !! "rating")) eqn:Ht.
  - exists "Invalid rating parameter. Please specify a rating between 1 and 5.".
    assert (get_by_rating request =
            Respond {| status := 400;
                       body := MessageBody "Invalid rating parameter. Please specify a rating between 1 and 5." |})
      as ->; [|done].
    destruct H as [?|[Hnan|[(r & Hr & Hout)|(negative & Hinf)]]]; [done| | |].
    + by apply get_by_rating_NaN.
    + by apply (get_by_rating_out_of_range request r).
    + by apply (get_by_rating_infinite request negative).
  - exists "Rating parameter is required.".
    by rewrite (get_by_rating_missing request Ht).
Qed.

Lemma get_by_rating_rejects_witness :
  (∃ message, get_by_rating (request_with [("rating", QString "0")]) =
     Respond {| status := 400; body := MessageBody message |}) ∧
  (∃ message, get_by_rating (request_with [("rating", QString "6")]) =
     Respond {| status := 400; body := MessageBody message |}) ∧
  (∃ message, get_by_rating (request_with [("rating", QString "abc")]) =
     Respond {| status := 400; body := MessageBody message |}) ∧
  (∃ message, get_by_rating (request_with []) =
     Respond {| status := 400; body := MessageBody message |}).
Proof.
  repeat split.
  - destruct (get_by_rating_rejects Pg.query (request_with [("rating", QString "0")])
                sample_books) as (m & Hm & _); [|by exists m].
    right. right. left. exists 0. split; [reflexivity|lia].
  - destruct (get_by_rating_rejects Pg.query (request_with [("rating", QString "6")])
                sample_books) as (m & Hm & _); [|by exists m].
    right. right. left. exists 6. split; [reflexivity|lia].
  - destruct (get_by_rating_rejects Pg.query (request_with [("rating", QString "abc")])
                sample_books) as (m & Hm & _); [|by exists m].
    right. left. reflexivity.
  - destruct (get_by_rating_rejects Pg.query (request_with []) sample_books)
      as (m & Hm & _); [|by exists m].
    left. reflexivity.
Defined.

(** C2, as stated, fails: the rating ["3.5"] is not an integer, yet the
    handler does not answer 400; it truncates the value to 3, issues the
    query with 3 bound, and answers 200 on the sample table. *)
Lemma get_by_rating_accepts_fraction :
  integer_spelling "3.5" = false ∧
  JS.parseInt (Some (QString "3.5")) = Int 3 ∧
  (∀ r : Response,
     get_by_rating (request_with [("rating", QString "3.5")]) ≠ Respond r) ∧
  (∃ on_then on_catch,
     get_by_rating (request_with [("rating", QString "3.5")]) =
       AwaitQuery select_by_rating [PNumber (Int 3)] on_then on_catch) ∧
  response (serve Pg.query (get_by_rating (request_with [("rating", QString "3.5")]))
              sample_books).1 =
    {| status := 200; body := BooksBody (formatBooks [jurassic_park]) |}.
Proof.
  split; [reflexivity|]. split; [reflexivity|]. split; [|split].
  - intros r. vm_compute. discriminate.
  - eexists _, _. reflexivity.
  - vm_compute. reflexivity.
Qed.



(** ** Outcomes of [delete_by_range] *)

(** C4, as amended: when [parseInt] finds no number at the start of [min]
    or of [max], or the two numbers it returns compare as [min > max], the
    handler answers 400 with its message and returns without calling the
    pool: whatever the pool is, the table is the one the request found.  A
    bound that only starts with digits is a number to [parseInt], and the
    comparison is the one of double-precision numbers. *)
Theorem delete_by_range_rejects (pool : Pool) (request : Request) (books : Table) :
  JS.parseInt (query request !! "min") = NaN ∨
  JS.parseInt (query request !! "max") = NaN ∨
  JS.gt (JS.parseInt (query request !! "min"))
        (JS.parseInt (query request !! "max")) = true ->
  delete_by_range request =
    Respond {| status := 400;
               body := MessageBody "Invalid date parameters. Please specify a min and max publication year. min must be less than max." |} ∧
  status (response (serve pool (delete_by_range request) books).1) = 400 ∧
  (serve pool (delete_by_range request) books).2 = books.
Proof.
  intros H.
  assert (delete_by_range request =
    Respond {| status := 400;
               body := MessageBody "Invalid date parameters. Please specify a min and max publication year. min must be less than max." |})
    as ->; [|done].
  apply delete_by_range_invalid.
  destruct H as [->|[->|Hgt]]; [by left|right; by left|right; by right].
Qed.

Lemma delete_by_range_rejects_witness :
  status (response (serve Pg.query
                      (delete_by_range (request_with [("min", QString "2000");
                                                      ("max", QString "1990")]))
                      sample_books).1) = 400 ∧
  (serve Pg.query
     (delete_by_range (request_with [("min", QString "abc"); ("max", QString "1990")]))
     sample_books).2 = sample_books ∧
  status (response (serve Pg.query
                      (delete_by_range (request_with [("min", QString "9007199254740994");
                                                      ("max", QString "9007199254740993")]))
                      sample_books).1) = 400.
Proof.
  split; [|split].
  - refine (proj1 (proj2 (delete_by_range_rejects Pg.query
      (request_with [("min", QString "2000"); ("max", QString "1990")]) sample_books _))).
    right. right. reflexivity.
  - refine (proj2 (proj2 (delete_by_range_rejects Pg.query
      (request_with [("min", QString "abc"); ("max", QString "1990")]) sample_books _))).
    left. reflexivity.
  - refine (proj1 (proj2 (delete_by_range_rejects Pg.query
      (request_with [("min", QString "9007199254740994");
                     ("max", QString "9007199254740993")]) sample_books _))).
    right. right. vm_compute. reflexivity.
Defined.

(** C4, as stated, fails.  The bound ["1990abc"] is not numeric, yet the
    handler does not answer 400: it reads 1990, calls the pool with the raw
    strings, and the answer on the sample table is a 500.  And the bounds
    9007199254740993 and 9007199254740992 are both numeric with
    [min > max], yet the handler does not answer 400 either: as
    double-precision numbers both are 2^53, and the pool is called. *)
Lemma delete_by_range_accepts_non_numeric :
  numeric_spelling "1990abc" = false ∧
  JS.parseInt (Some (QString "1990abc")) = Int 1990 ∧
  (∀ r : Response,
     delete_by_range (request_with [("min", QString "1990abc"); ("max", QString "2000")])
       ≠ Respond r) ∧
  (∃ on_then on_catch,
     delete_by_range (request_with [("min", QString "1990abc"); ("max", QString "2000")]) =
       AwaitQuery delete_in_range
         [PQuery (Some (QString "1990abc")); PQuery (Some (QString "2000"))]
         on_then on_catch) ∧
  status (response (serve Pg.query
            (delete_by_range (request_with [("min", QString "1990abc");
                                            ("max", QString "2000")]))
            sample_books).1) = 500 ∧
  numeric_spelling "9007199254740993" = true ∧
  numeric_spelling "9007199254740992" = true ∧
  decimal_value "9007199254740993" > decimal_value "9007199254740992" ∧
  JS.parseInt (Some (QString "9007199254740993")) =
    JS.parseInt (Some (QString "9007199254740992")) ∧
  (∀ r : Response,
     delete_by_range (request_with [("min", QString "9007199254740993");
                                    ("max", QString "9007199254740992")])
       ≠ Respond r) ∧
  (∃ on_then on_catch,
     delete_by_range (request_with [("min", QString "9007199254740993");
                                    ("max", QString "9007199254740992")]) =
       AwaitQuery delete_in_range
         [PQuery (Some (QString "9007199254740993"));
          PQuery (Some (QString "9007199254740992"))]
         on_then on_catch).
Proof.
  split; [reflexivity|]. split; [reflexivity|]. split.
  { intros r. vm_compute. discriminate. }
  split; [eexists _, _; reflexivity|].
  split; [vm_compute; reflexivity|].
  split; [reflexivity|]. split; [reflexivity|].
  split; [vm_compute; reflexivity|].
  split; [vm_compute; reflexivity|]. split.
  { intros r. vm_compute. discriminate. }
  eexists _, _. vm_compute. reflexivity.
Qed.

(** C6: for a request that passes validation, when the delete resolves the
    handler answers 200 with the message "Books successfully deleted" and
    a [deletedCount] equal to the [rowCount] of the result, also when that
    count is 0; the status is never 404.  The pool is arbitrary. *)
Theorem delete_by_range_answers_200 (pool : Pool) (request : Request) (lo hi : Z)
    (books books' : Table) (result : QueryResult) :
  valid_range request lo hi ->
  pool delete_in_range
       [PQuery (query request !! "min"); PQuery (query request !! "max")] books =
    (Fulfilled result, books') ->
  response (serve pool (delete_by_range request) books).1 =
    {| status := 200;
       body := DeletedBody "Books successfully deleted" (rowCount result) |} ∧
  status (response (serve pool (delete_by_range request) books).1) ≠ 404.
Proof.
  intros Hvalid Hpool.
  rewrite (delete_by_range_valid request lo hi Hvalid). simpl. rewrite Hpool. simpl.
  split; [done|lia].
Qed.

Lemma delete_by_range_answers_200_witness :
  response (serve Pg.query
              (delete_by_range (request_with [("min", QString "1800");
                                              ("max", QString "1900")]))
              sample_books).1 =
    {| status := 200; body := DeletedBody "Books successfully deleted" 0 |}.
Proof.
  refine (proj1 (delete_by_range_answers_200 Pg.query
    (request_with [("min", QString "1800"); ("max", QString "1900")]) 1800 1900
    sample_books sample_books {| rows := []; rowCount := 0 |} _ _)).
  - unfold valid_range. split; [reflexivity|]. split; [reflexivity|lia].
  - vm_compute. reflexivity.
Defined.

(** ** Failures *)


Lemma handler_statuses (pool : Pool) (route : Route) (request : Request) (books : Table) :
  let answer := response (serve pool (handler route request) books).1 in
  (status answer = 200 ∧ ∃ bs, body answer = BooksBody bs) ∨
  (status answer = 200 ∧ ∃ m n, body answer = DeletedBody m n) ∨
  ((status answer = 400 ∨ status answer = 404 ∨ status answer = 500) ∧
   ∃ m, body answer = MessageBody m).
Proof.
  destruct route; simpl.
  - destruct (get_by_rating_cases request) as [Hf|[(_ & _ & H)|[r Hr]]].
    + rewrite (get_by_rating_missing request Hf). simpl. right; right; eauto.
    + rewrite H. simpl. right; right; eauto.
    + rewrite (get_by_rating_valid request r Hr). simpl.
      destruct (pool _ _ _) as [[result|error] books']; simpl.
      * destruct (length (rows result) =? 0)%nat; simpl.
        -- right; right; eauto.
        -- left; eauto.
      * right; right; eauto.
  - destruct (delete_by_range_cases request) as [H|Hv].
    + rewrite (delete_by_range_invalid request H). simpl. right; right; eauto.
    + rewrite (delete_by_range_passes request Hv). simpl.
      destruct (pool _ _ _) as [[result|error] books']; simpl.
      * right; left; eauto.
      * right; right; eauto.
Qed.



(** ** Where the parameters come from *)

(** C9: both handlers read [request.query] and never [request.params].
    Two requests with the same query string are handled alike whatever
    their path segments hold.  A [get_by_rating] request with no [rating]
    in its query string is answered 400 "Rating parameter is required.",
    and one whose [request.query.rating] validates has the number read
    from it bound.  A [delete_by_range] request is validated on
    [request.query.min] and [request.query.max]: when they pass, the
    handler calls the pool and binds these two values themselves; when it
    calls the pool, they have passed and are what is bound; and when the
    query string lacks either, the answer is 400. *)
Theorem handlers_read_the_query_string :
  (∀ route request request',
     query request = query request' ->
     handler route request = handler route request') ∧
  (∀ request,
     query request !! "rating" = None ->
     get_by_rating request =
       Respond {| status := 400; body := MessageBody "Rating parameter is required." |}) ∧
  (∀ request r,
     valid_rating request r ->
     ∃ on_then on_catch,
       get_by_rating request =
         AwaitQuery select_by_rating
           [PNumber (JS.parseInt (query request !! "rating"))] on_then on_catch) ∧
  (∀ request theQuery values on_then on_catch,
     delete_by_range request = AwaitQuery theQuery values on_then on_catch ->
     values = [PQuery (query request !! "min"); PQuery (query request !! "max")] ∧
     ¬ (JS.isNaN (JS.parseInt (query request !! "min")) = true ∨
        JS.isNaN (JS.parseInt (query request !! "max")) = true ∨
        JS.gt (JS.parseInt (query request !! "min"))
              (JS.parseInt (query request !! "max")) = true)) ∧
  (∀ request,
     range_passes request ->
     ∃ on_then on_catch,
       delete_by_range request =
         AwaitQuery delete_in_range
           [PQuery (query request !! "min"); PQuery (query request !! "max")]
           on_then on_catch) ∧
  (∀ request,
     query request !! "min" = None ∨ query request !! "max" = None ->
     delete_by_range request =
       Respond {| status := 400;
                  body := MessageBody "Invalid date parameters. Please specify a min and max publication year. min must be less than max." |}).
Proof.
  split; [|split; [|split; [|split; [|split]]]].
  - intros route request request' Hq.
    destruct route; simpl; unfold get_by_rating, delete_by_range; by rewrite Hq.
  - intros request Hnone. apply get_by_rating_missing. by rewrite Hnone.
  - intros request r Hr. rewrite (get_by_rating_valid request r Hr).
    destruct Hr as (_ & -> & _). eauto.
  - intros request theQuery values on_then on_catch Hh.
    destruct (delete_by_range_cases request) as [H|Hv].
    + by rewrite (delete_by_range_invalid request H) in Hh.
    + rewrite (delete_by_range_passes request Hv) in Hh.
      injection Hh as _ <- _ _. split; [done|].
      destruct Hv as (Hmin & Hmax & Hgt). rewrite Hmin, Hmax, Hgt.
      by intros [?|[?|?]].
  - intros request Hv. rewrite (delete_by_range_passes request Hv). eauto.
  - intros request Hnone. apply delete_by_range_invalid.
    destruct Hnone as [-> | ->]; [by left|right; by left].
Qed.

(** The path segments hold valid values and the query string holds none;
    and the query string holds a range while the path segments hold
    another. *)
Lemma handlers_read_the_query_string_witness :
  get_by_rating {| params := {[ "rating" := "3" ]}; query := ∅ |} =
    Respond {| status := 400; body := MessageBody "Rating parameter is required." |} ∧
  delete_by_range {| params := {[ "min" := "1990"; "max" := "2000" ]}; query := ∅ |} =
    Respond {| status := 400;
               body := MessageBody "Invalid date parameters. Please specify a min and max publication year. min must be less than max." |} ∧
  ∃ on_then on_catch,
    delete_by_range
      {| params := {[ "min" := "1800"; "max" := "1850" ]};
         query := {[ "min" := QString "1990"; "max" := QString "2000" ]} |} =
      AwaitQuery delete_in_range
        [PQuery (Some (QString "1990")); PQuery (Some (QString "2000"))]
        on_then on_catch.
Proof.
  split; [|split].
  - apply (proj1 (proj2 handlers_read_the_query_string)). reflexivity.
  - apply (proj2 (proj2 (proj2 (proj2 (proj2 handlers_read_the_query_string))))).
    left. reflexivity.
  - destruct (proj1 (proj2 (proj2 (proj2 (proj2 handlers_read_the_query_string))))
      {| params := {[ "min" := "1800"; "max" := "1850" ]};
         query := {[ "min" := QString "1990"; "max" := QString "2000" ]} |})
      as (on_then & on_catch & H).
    + unfold range_passes. split; [reflexivity|]. split; reflexivity.
    + exists on_then, on_catch. rewrite H. reflexivity.
Defined.

(** ** Executing the delete *)

Section Delete.

(** The database's reading of a text as an integer, whatever it is. *)
Variable input : string -> Pg.Parsed.


(** The answer and the table after [delete_by_range], for a request that
    passes validation: they follow what the database reads from the two
    raw values. *)
Lemma serve_delete_by_range (request : Request) (books : Table) :
  range_passes request ->
  serve (Pg.query_with input) (delete_by_range request) books =
    match Pg.integer_param_with input (PQuery (query request !! "min")),
          Pg.integer_param_with input (PQuery (query request !! "max")) with
    | Pg.Fails error, _ =>
        ({| response := server_error;
            console := [ConsoleText "DB Query error on DELETE /delete_by_range";
                        ConsoleError error] |}, books)
    | Pg.Value a, Pg.Value b =>
        ({| response :=
              {| status := 200;
                 body := DeletedBody "Books successfully deleted"
                           (length (filter (Pg.year_within a b) books)) |};
            console := [] |},
         filter (fun book => ¬ Pg.year_within a b book) books)
    | _, Pg.Fails error =>
        ({| response := server_error;
            console := [ConsoleText "DB Query error on DELETE /delete_by_range";
                        ConsoleError error] |}, books)
    | _, _ =>
        ({| response :=
              {| status := 200; body := DeletedBody "Books successfully deleted" 0 |};
            console := [] |}, books)
    end.
Proof.
  intros Hv. rewrite (delete_by_range_passes request Hv).
  unfold serve, Pg.query_with. rewrite decide_False by done. rewrite decide_True by done.
  by destruct (Pg.integer_param_with input (PQuery (query request !! "min")));
    destruct (Pg.integer_param_with input (PQuery (query request !! "max"))).
Qed.

Lemma filter_out_then_in {A} (P : A -> Prop) `{!∀ x, Decision (P x)} (l : list A) :
  filter P (filter (fun x => ¬ P x) l) = [].
Proof.
  induction l as [|x l IH]; [done|].
  rewrite filter_cons. case_decide as Hx; [|done].
  rewrite filter_cons. by rewrite decide_False.
Qed.

Lemma filter_out_twice {A} (P : A -> Prop) `{!∀ x, Decision (P x)} (l : list A) :
  filter (fun x => ¬ P x) (filter (fun x => ¬ P x) l) = filter (fun x => ¬ P x) l.
Proof.
  induction l as [|x l IH]; [done|].
  rewrite filter_cons. case_decide as Hx; [|done].
  rewrite filter_cons. rewrite decide_True by done. by rewrite IH.
Qed.

Lemma filter_complement_length {A} (P : A -> Prop) `{!∀ x, Decision (P x)} (l : list A) :
  (length (filter P l) + length (filter (fun x => ¬ P x) l))%nat = length l.
Proof.
  induction l as [|x l IH]; [done|].
  rewrite !filter_cons. destruct (decide (P x)).
  - rewrite decide_False by auto. simpl. lia.
  - rewrite decide_True by auto. simpl. lia.
Qed.

(** A request that passes validation and whose two raw values the database
    reads as [a] and [b]: the rows with a year in [a..b] are removed, their
    number is reported, and the same request served again reports 0. *)
Lemma delete_by_range_removes_range (request : Request) (a b : Z) (books : Table) :
  range_passes request ->
  Pg.integer_param_with input (PQuery (query request !! "min")) = Pg.Value a ->
  Pg.integer_param_with input (PQuery (query request !! "max")) = Pg.Value b ->
  let remaining := filter (fun book => ¬ Pg.year_within a b book) books in
  serve (Pg.query_with input) (delete_by_range request) books =
    ({| response :=
          {| status := 200;
             body := DeletedBody "Books successfully deleted"
                       (length (filter (Pg.year_within a b) books)) |};
        console := [] |}, remaining) ∧
  serve (Pg.query_with input) (delete_by_range request) remaining =
    ({| response :=
          {| status := 200; body := DeletedBody "Books successfully deleted" 0 |};
        console := [] |}, remaining).
Proof.
  intros Hv Ha Hb remaining.
  rewrite !(serve_delete_by_range request _ Hv), Ha, Hb.
  split; [done|]. subst remaining. by rewrite filter_out_then_in, filter_out_twice.
Qed.

(** Whatever the request and whatever the database reads, the table after
    [delete_by_range] is the table before with rows left out, and the count
    the answer reports is the number of rows that are gone. *)
Lemma delete_by_range_conserves (request : Request) (books : Table) :
  let served := serve (Pg.query_with input) (delete_by_range request) books in
  sublist served.2 books ∧
  (reported (Answered served.1) + length served.2)%nat = length books.
Proof.
  simpl. destruct (delete_by_range_cases request) as [H|Hv].
  { by rewrite (delete_by_range_invalid request H). }
  rewrite (serve_delete_by_range request books Hv).
  destruct (Pg.integer_param_with input (PQuery (query request !! "min"))) as [e| |a];
    destruct (Pg.integer_param_with input (PQuery (query request !! "max"))) as [e'| |b];
    simpl; try done.
  split; [apply sublist_filter|apply filter_complement_length].
Qed.

Lemma delete_by_range_repeated (request : Request) (books : Table) :
  let first := serve (Pg.query_with input) (delete_by_range request) books in
  let second := serve (Pg.query_with input) (delete_by_range request) first.2 in
  second.2 = first.2 ∧
  (status (response first.1) = 200 ->
   response second.1 =
     {| status := 200; body := DeletedBody "Books successfully deleted" 0 |}) ∧
  (status (response first.1) ≠ 200 -> second.1 = first.1).
Proof.
  simpl. destruct (delete_by_range_cases request) as [H|Hv].
  { by rewrite (delete_by_range_invalid request H). }
  rewrite !(serve_delete_by_range request _ Hv).
  destruct (Pg.integer_param_with input (PQuery (query request !! "min"))) as [e| |a];
    destruct (Pg.integer_param_with input (PQuery (query request !! "max"))) as [e'| |b];
    simpl; try done.
  by rewrite filter_out_then_in, filter_out_twice.
Qed.

End Delete.

(** C1: the handler on the request [min=1990abc&max=2000].  The request
    passes validation as the range 1990..2000 and two rows of the sample
    table lie in that range, but the handler binds the raw query strings,
    not the validated integers: the database rejects ["1990abc"], the
    handler answers 500 and no row is removed.  With [min=1990] the same
    range is deleted and counted. *)
Theorem delete_by_range_binds_raw_strings :
  valid_range (request_with [("min", QString "1990abc"); ("max", QString "2000")])
              1990 2000 ∧
  (∃ on_then on_catch,
     delete_by_range (request_with [("min", QString "1990abc"); ("max", QString "2000")]) =
       AwaitQuery delete_in_range
         [PQuery (Some (QString "1990abc")); PQuery (Some (QString "2000"))]
         on_then on_catch) ∧
  [PQuery (Some (QString "1990abc")); PQuery (Some (QString "2000"))] ≠
    [PNumber (Int 1990); PNumber (Int 2000)] ∧
  filter (Pg.year_within 1990 2000) sample_books = [jurassic_park; fight_club] ∧
  serve Pg.query
    (delete_by_range (request_with [("min", QString "1990abc"); ("max", QString "2000")]))
    sample_books =
    ({| response := server_error;
        console := [ConsoleText "DB Query error on DELETE /delete_by_range";
                    ConsoleError Pg.invalid_input] |},
     sample_books) ∧
  serve Pg.query
    (delete_by_range (request_with [("min", QString "1990"); ("max", QString "2000")]))
    sample_books =
    ({| response := {| status := 200;
                       body := DeletedBody "Books successfully deleted" 2 |};
        console := [] |},
     [hunger_games]).
Proof.
  split.
  { unfold valid_range. split; [reflexivity|]. split; [reflexivity|lia]. }
  split; [eexists _, _; reflexivity|].
  split; [discriminate|].
  split; [vm_compute; reflexivity|].
  split; vm_compute; reflexivity.
Qed.

(** The bounds [0b1] and [0b11111010000]: [parseInt] reads 0 from both, so
    the request validates as the range 0..0, while the database reads the
    raw strings as 1 and 2000 and removes the rows of 1990 and 1996. *)
Example delete_by_range_binary_bounds :
  valid_range (request_with [("min", QString "0b1"); ("max", QString "0b11111010000")])
              0 0 ∧
  serve Pg.query
    (delete_by_range (request_with [("min", QString "0b1");
                                    ("max", QString "0b11111010000")]))
    sample_books =
    ({| response := {| status := 200;
                       body := DeletedBody "Books successfully deleted" 2 |};
        console := [] |},
     [hunger_games]).
Proof.
  split.
  - unfold valid_range. split; [reflexivity|]. split; [reflexivity|lia].
  - vm_compute. reflexivity.
Qed.

(** * Further properties of the routes *)

(** ** What [get_by_rating] sends to the pool *)

(** X1: whenever [get_by_rating] calls the pool, the statement is the fixed
    SELECT text, whatever the request holds, and the one bound value is the
    integer that [parseInt] read from [request.query.rating], which lies in
    1..5; the handler never sends the raw query value or an integer outside
    that range. *)
Theorem get_by_rating_queries_validated (request : Request)
    theQuery values on_then on_catch :
  get_by_rating request = AwaitQuery theQuery values on_then on_catch ->
  theQuery = select_by_rating ∧
  ∃ r : Z,
    values = [PNumber (Int r)] ∧ 1 <= r <= 5 ∧
    JS.truthy (query request !! "rating") = true ∧
    JS.parseInt (query request !! "rating") = Int r.
Proof.
  intros Hh.
  destruct (get_by_rating_cases request) as [Hf|[(_ & _ & H)|[r Hr]]].
  - by rewrite (get_by_rating_missing request Hf) in Hh.
  - by rewrite H in Hh.
  - rewrite (get_by_rating_valid request r Hr) in Hh.
    injection Hh as <- <- _ _. split; [done|]. exists r.
    destruct Hr as (Ht & Hp & Hrange). done.
Qed.

Lemma get_by_rating_queries_validated_witness :
  ∃ r : Z, [PNumber (Int 4)] = [PNumber (Int r)] ∧ 1 <= r <= 5.
Proof.
  destruct (get_by_rating_queries_validated
              (request_with [("rating", QString "4.9 stars")])
              select_by_rating [PNumber (Int 4)] _ _ eq_refl)
    as (_ & r & Hv & Hr & _).
  exists r. split; [exact Hv|exact Hr].
Defined.

(** X2: served against the database, a [get_by_rating] request that
    validates to [r] is answered 404 exactly when no stored row has
    [floor(rating_avg) = r]; otherwise it is answered 200 with every such
    row, formatted, in the order of the table.  Nothing is written to the
    console and the table is left as it was. *)
Theorem get_by_rating_returns_all_matches (request : Request) (r : Z) (books : Table) :
  valid_rating request r ->
  let matches := filter (Pg.floor_rating_is r) books in
  serve Pg.query (get_by_rating request) books =
    ({| response :=
          if decide (matches = [])
          then {| status := 404; body := MessageBody "No books found with that rating." |}
          else {| status := 200; body := BooksBody (formatBooks matches) |};
        console := [] |}, books) ∧
  (status (response (serve Pg.query (get_by_rating request) books).1) = 404 ↔
   ∀ book, book ∈ books -> ¬ Pg.floor_rating_is r book).
Proof.
  intros Hvalid matches.
  assert (Hserve : serve Pg.query (get_by_rating request) books =
    ({| response :=
          if decide (matches = [])
          then {| status := 404; body := MessageBody "No books found with that rating." |}
          else {| status := 200; body := BooksBody (formatBooks matches) |};
        console := [] |}, books)).
  { rewrite (get_by_rating_valid request r Hvalid). simpl. fold matches.
    destruct matches; by simpl. }
  split; [exact Hserve|]. rewrite Hserve. simpl.
  destruct (decide (matches = [])) as [He|Hne]; simpl.
  - split; [|done]. intros _ book Hin Hm.
    assert (book ∈ matches) as Hbm by (by apply list_elem_of_filter).
    rewrite He in Hbm. by apply not_elem_of_nil in Hbm.
  - split; [done|]. intros Hnone. destruct Hne.
    subst matches. destruct (filter _ books) as [|book rest] eqn:Hf; [done|].
    assert (book ∈ filter (Pg.floor_rating_is r) books) as Hin
      by (rewrite Hf; apply list_elem_of_here).
    apply list_elem_of_filter in Hin as [Hm Hin]. by destruct (Hnone book Hin).
Qed.

Lemma get_by_rating_returns_all_matches_witness :
  response (serve Pg.query (get_by_rating (request_with [("rating", QString "4")]))
              sample_books).1 =
    {| status := 200; body := BooksBody (formatBooks [hunger_games; fight_club]) |}.
Proof.
  assert (Hvalid : valid_rating (request_with [("rating", QString "4")]) 4).
  { unfold valid_rating. split; [reflexivity|]. split; [reflexivity|lia]. }
  pose proof (proj1 (get_by_rating_returns_all_matches
    (request_with [("rating", QString "4")]) 4 sample_books Hvalid)) as H.
  rewrite H. vm_compute. reflexivity.
Defined.

(** ** What [delete_by_range] does to the table *)


(** X4: served against the database, [delete_by_range] only ever removes
    rows.  For every request, the table afterwards is the table before with
    some rows left out (same rows, same order), and the count the answer
    reports (0 for an answer that is not a 200) is exactly the number of
    rows that are gone. *)
Theorem delete_by_range_reports_what_it_removes (request : Request) (books : Table) :
  let served := serve Pg.query (delete_by_range request) books in
  sublist served.2 books ∧
  (reported (Answered served.1) + length served.2)%nat = length books.
Proof. apply (delete_by_range_conserves Pg.integer_literal). Qed.

(** X5: serving the same [delete_by_range] request a second time changes
    nothing more.  The table after the second call is the table after the
    first; when the first answer was a 200 the second is a 200 with
    [deletedCount] 0, and when the first answer was a 400 or a 500 the
    second answer is the same. *)
Theorem delete_by_range_twice (request : Request) (books : Table) :
  let first := serve Pg.query (delete_by_range request) books in
  let second := serve Pg.query (delete_by_range request) first.2 in
  second.2 = first.2 ∧
  (status (response first.1) = 200 ->
   response second.1 =
     {| status := 200; body := DeletedBody "Books successfully deleted" 0 |}) ∧
  (status (response first.1) ≠ 200 -> second.1 = first.1).
Proof. apply (delete_by_range_repeated Pg.integer_literal). Qed.

(** ** Status codes, for any pool *)

(** X6: whatever the pool does, [delete_by_range] answers 200, 400 or 500
    and never 404, and its 200 is the only answer that carries a
    [deletedCount]; [get_by_rating] answers 200, 400, 404 or 500, and its
    200 always carries at least one book, as many books as the pool
    resolved rows. *)
Theorem status_codes_of_the_routes (pool : Pool) (request : Request) (books : Table) :
  let deleted := response (serve pool (delete_by_range request) books).1 in
  let found := response (serve pool (get_by_rating request) books).1 in
  (status deleted = 200 ∨ status deleted = 400 ∨ status deleted = 500) ∧
  (status deleted = 200 ↔ ∃ message n, body deleted = DeletedBody message n) ∧
  (status found = 200 ∨ status found = 400 ∨ status found = 404 ∨ status found = 500) ∧
  (status found = 200 ↔ ∃ bs, body found = BooksBody bs) ∧
  (∀ bs, body found = BooksBody bs ->
     bs ≠ [] ∧
     ∃ result books',
       pool select_by_rating [PNumber (JS.parseInt (query request !! "rating"))] books =
         (Fulfilled result, books') ∧
       length bs = length (rows result)).
Proof.
  simpl. split; [|split]; [| |split; [|split]].
  - destruct (delete_by_range_cases request) as [H|Hv].
    + rewrite (delete_by_range_invalid request H). simpl. auto.
    + rewrite (delete_by_range_passes request Hv). simpl.
      destruct (pool _ _ _) as [[result|error] books']; simpl; auto.
  - destruct (delete_by_range_cases request) as [H|Hv].
    + rewrite (delete_by_range_invalid request H). simpl.
      split; [done|]. by intros (? & ? & ?).
    + rewrite (delete_by_range_passes request Hv). simpl.
      destruct (pool _ _ _) as [[result|error] books']; simpl.
      * split; [eauto|done].
      * split; [done|]. by intros (? & ? & ?).
  - destruct (handler_statuses pool GetByRating request books)
      as [[H _]|[[H _]|[[H|[H|H]] _]]]; simpl in H; auto.
  - destruct (handler_statuses pool GetByRating request books)
      as [[H Hb]|[[H (m & n & Hb)]|[H (m & Hb)]]]; simpl in H, Hb.
    + done.
    + rewrite Hb. split; [|by intros [? ?]].
      intros _. exfalso. revert Hb.
      destruct (get_by_rating_cases request) as [Hf|[(_ & _ & Hc)|[r Hr]]].
      * by rewrite (get_by_rating_missing request Hf).
      * by rewrite Hc.
      * rewrite (get_by_rating_valid request r Hr). simpl.
        destruct (pool _ _ _) as [[result|error] books']; simpl; [|done].
        by destruct (length (rows result) =? 0)%nat.
    + rewrite Hb. split; [lia|by intros [? ?]].
  - intros bs.
    destruct (get_by_rating_cases request) as [Hf|[(_ & _ & Hc)|[r Hr]]].
    + by rewrite (get_by_rating_missing request Hf).
    + by rewrite Hc.
    + rewrite (get_by_rating_valid request r Hr). simpl.
      destruct Hr as (_ & -> & _).
      destruct (pool _ _ _) as [[result|error] books'] eqn:Hpool; simpl; [|done].
      destruct (length (rows result) =? 0)%nat eqn:Hlen; simpl; [done|].
      intros [= <-]. apply Nat.eqb_neq in Hlen. split.
      * intros Hnil. apply (f_equal length) in Hnil.
        by rewrite formatBooks_length in Hnil.
      * exists result, books'. split; [done|]. apply formatBooks_length.
Qed.

(** ** The public view *)

(** Two rows have the same view if and only if they agree on each of the
    fourteen columns, a column that is absent counting as [undefined]. *)
Lemma formatBook_determined_by_columns (book book' : Row) :
  formatBook book = formatBook book' ↔
  Forall (fun name => field book name = field book' name) book_columns.
Proof.
  unfold book_columns, formatBook. split.
  - intros H. injection H as ? ? ? ? ? ? ? ? ? ? ? ? ? ?.
    repeat (apply Forall_cons; split; [done|]). apply Forall_nil_2.
  - intros H. repeat (apply Forall_cons in H as [-> H]). done.
Qed.

(** X7: the public views hold exactly the fourteen columns [formatBooks]
    reads, row by row and in order.  Two tables have the same list of views
    if and only if they have the same length and agree, position by
    position, on each of these columns (an absent column counting as
    [undefined]); any other column has no effect.  The views of a
    concatenation are the concatenation of the views. *)
Theorem formatBooks_faithful (books books' : list Row) :
  (∀ more, formatBooks (books ++ more)%list =
           (formatBooks books ++ formatBooks more)%list) ∧
  (formatBooks books = formatBooks books' ↔
   Forall2 (fun book book' =>
              Forall (fun name => field book name = field book' name) book_columns)
           books books').
Proof.
  split.
  - intros more. unfold formatBooks. apply map_app.
  - unfold formatBooks. revert books'.
    induction books as [|book books IH]; intros [|book' books']; cbn [map].
    + split; [constructor|done].
    + split; [done|]. intros H. inversion H.
    + split; [done|]. intros H. inversion H.
    + split.
      * intros H.
        pose proof (f_equal head H) as Hb. pose proof (f_equal tail H) as Hrest.
        cbn [head tail] in Hb, Hrest. apply (inj Some) in Hb. constructor.
        -- by apply formatBook_determined_by_columns.
        -- by apply IH.
      * intros H. inversion H as [|? ? ? ? Hb Hrest]; subst.
        f_equal; [by apply formatBook_determined_by_columns|by apply IH].
Qed.

(** ** Reading never writes *)

Lemma get_by_rating_statement (request : Request) theQuery values on_then on_catch :
  get_by_rating request = AwaitQuery theQuery values on_then on_catch ->
  theQuery = select_by_rating ∧ ∃ r : Z, values = [PNumber (Int r)].
Proof.
  intros Hh.
  destruct (get_by_rating_cases request) as [Hf|[(_ & _ & H)|[r Hr]]].
  - by rewrite (get_by_rating_missing request Hf) in Hh.
  - by rewrite H in Hh.
  - rewrite (get_by_rating_valid request r Hr) in Hh.
    injection Hh as <- <- _ _. eauto.
Qed.

(** X12: calls of [get_by_rating], however many and however their steps
    interleave over the database, never change the table: at every point
    of the run it is the table the calls found, and every call in flight
    carries the fixed SELECT statement. *)
Theorem concurrent_reads_keep_the_table (requests : list Request) (books : Table)
    (s : System) :
  rtc (step Pg.query get_by_rating) (arrived books requests) s ->
  table s = books ∧
  Forall (fun c => ∀ theQuery values on_then on_catch,
            c = Awaiting theQuery values on_then on_catch ->
            theQuery = select_by_rating) (calls s).
Proof.
  intros Hrun.
  assert (Forall (originates get_by_rating requests) (calls s) ∧ table s = books)
    as [Hcalls Htable].
  { revert s Hrun. apply rtc_ind_r.
    - split; [|done]. simpl. apply Forall_fmap, Forall_forall. by intros request Hin.
    - intros s s' _ Hstep [Hcalls Htable].
      destruct Hstep as [s i request Hi|s i theQuery values on_then on_catch Hi]; simpl.
      + pose proof (Forall_lookup_1 _ _ _ _ Hcalls Hi) as Hreq. simpl in Hreq.
        split; [|done]. apply Forall_insert; [done|].
        destruct (get_by_rating request) eqn:Hh; simpl; [done|]. eauto.
      + pose proof (Forall_lookup_1 _ _ _ _ Hcalls Hi) as (request & Hreq & Hh).
        split; [by apply Forall_insert|].
        destruct (get_by_rating_statement request _ _ _ _ Hh) as (-> & r & ->).
        rewrite <- Htable. unfold Pg.query, Pg.query_with.
        rewrite decide_True by done. done. }
  split; [done|].
  eapply Forall_impl; [exact Hcalls|].
  intros c Hc theQuery values on_then on_catch ->. simpl in Hc.
  destruct Hc as (request & _ & Hh).
  by destruct (get_by_rating_statement request _ _ _ _ Hh) as (-> & _).
Qed.

Lemma concurrent_reads_keep_the_table_witness :
  ∃ s : System,
    rtc (step Pg.query get_by_rating)
        (arrived sample_books
           [request_with [("rating", QString "4")]; request_with [("rating", QString "3")]])
        s ∧
    Forall (fun c => is_answered c) (calls s) ∧
    table s = sample_books.
Proof.
  eexists. split; [|split].
  - eapply rtc_l; [eapply (step_handle _ _ _ 1%nat); reflexivity|].
    eapply rtc_l; [eapply (step_handle _ _ _ 0%nat); reflexivity|].
    eapply rtc_l; [eapply (step_settle _ _ _ 1%nat); reflexivity|].
    eapply rtc_l; [eapply (step_settle _ _ _ 0%nat); reflexivity|].
    apply rtc_refl.
  - repeat constructor.
  - refine (proj1 (concurrent_reads_keep_the_table
      [request_with [("rating", QString "4")]; request_with [("rating", QString "3")]]
      sample_books _ _)).
    eapply rtc_l; [eapply (step_handle _ _ _ 1%nat); reflexivity|].
    eapply rtc_l; [eapply (step_handle _ _ _ 0%nat); reflexivity|].
    eapply rtc_l; [eapply (step_settle _ _ _ 1%nat); reflexivity|].
    eapply rtc_l; [eapply (step_settle _ _ _ 0%nat); reflexivity|].
    apply rtc_refl.
Defined.

(** ** The two 400 answers of [get_by_rating] *)

(** X13: whatever the pool, [get_by_rating] answers 400 exactly when the
    request fails validation, and the message tells which check failed:
    "Rating parameter is required." exactly when [request.query.rating] is
    missing or empty, and "Invalid rating parameter. Please specify a
    rating between 1 and 5." exactly when it is present but [parseInt]
    reads no integer in 1..5 from it. *)
Theorem get_by_rating_400_messages (pool : Pool) (request : Request) (books : Table) :
  let answer := response (serve pool (get_by_rating request) books).1 in
  (status answer = 400 ↔ ¬ ∃ r, valid_rating request r) ∧
  (answer = {| status := 400; body := MessageBody "Rating parameter is required." |} ↔
   JS.truthy (query request !! "rating") = false) ∧
  (answer = {| status := 400;
               body := MessageBody "Invalid rating parameter. Please specify a rating between 1 and 5." |} ↔
   JS.truthy (query request !! "rating") = true ∧ ¬ ∃ r, valid_rating request r).
Proof.
  simpl.
  destruct (get_by_rating_cases request) as [Hf|[(Ht & Hnot & H)|[r Hr]]].
  - rewrite (get_by_rating_missing request Hf). simpl.
    assert (¬ ∃ r, valid_rating request r) as Hnot.
    { intros (r & Ht & _). congruence. }
    split; [done|]. split; [done|]. split; [done|]. intros [Ht _]. congruence.
  - rewrite H. simpl. split; [done|]. split; [|done]. split; [done|congruence].
  - rewrite (get_by_rating_valid request r Hr). simpl.
    assert (JS.truthy (query request !! "rating") = true) as Ht by apply Hr.
    destruct (pool _ _ _) as [[result|error] books']; simpl.
    + destruct (length (rows result) =? 0)%nat; simpl.
      * split; [split; [done|intros []; eauto]|].
        split; [split; [done|congruence]|]. split; [done|]. intros [_ []]. eauto.
      * split; [split; [done|intros []; eauto]|].
        split; [split; [done|congruence]|]. split; [done|]. intros [_ []]. eauto.
    + split; [split; [done|intros []; eauto]|].
      split; [split; [done|congruence]|]. split; [done|]. intros [_ []]. eauto.
Qed.

(** ** Years written as plain decimal digits *)

Lemma decimal_digit_readings (c : ascii) :
  is_decimal_digit c ->
  JS.digit_value 10 c = Some (Z.of_nat (nat_of_ascii c) - 48) ∧
  Pg.digit_in 10 c = Some (Z.of_nat (nat_of_ascii c) - 48) ∧
  0 <= Z.of_nat (nat_of_ascii c) - 48 <= 9 ∧
  JS.is_white_space c = false ∧ Pg.is_space c = false ∧
  Ascii.eqb c "-" = false ∧ Ascii.eqb c "+" = false ∧ Ascii.eqb c "_" = false ∧
  Ascii.eqb c "x" || Ascii.eqb c "X" = false ∧
  Ascii.eqb c "o" || Ascii.eqb c "O" = false ∧
  Ascii.eqb c "b" || Ascii.eqb c "B" = false.
Proof.
  unfold is_decimal_digit, JS.digit_value, Pg.digit_in, JS.is_white_space, Pg.is_space.
  intros H. apply andb_True in H as [Hlo Hhi].
  apply Is_true_true, Z.leb_le in Hlo. apply Is_true_true, Z.leb_le in Hhi.
  assert (Hne : ∀ k : ascii, ¬ (48 <= Z.of_nat (nat_of_ascii k) <= 57) -> Ascii.eqb c k = false).
  { intros k Hk. destruct (Ascii.eqb_spec c k) as [->|]; [lia|done]. }
  cbv zeta.
  destruct (Z.leb_spec 48 (Z.of_nat (nat_of_ascii c))); [|lia].
  destruct (Z.leb_spec (Z.of_nat (nat_of_ascii c)) 57); [|lia]. simpl.
  destruct (Z.ltb_spec (Z.of_nat (nat_of_ascii c) - 48) 10); [|lia].
  destruct (Z.leb_spec 9 (Z.of_nat (nat_of_ascii c))); [|lia].
  destruct (Z.leb_spec (Z.of_nat (nat_of_ascii c)) 13); [lia|].
  destruct (Z.eqb_spec (Z.of_nat (nat_of_ascii c)) 32); [lia|].
  destruct (Z.eqb_spec (Z.of_nat (nat_of_ascii c)) 160); [lia|]. simpl.
  rewrite !Hne by (vm_compute; intros [? ?]; done).
  repeat split; try done; lia.
Qed.

Lemma decimal_value_step (c : ascii) (rest : list ascii) (acc : Z) :
  fold_left (fun acc c => 10 * acc + (Z.of_nat (nat_of_ascii c) - 48)) (c :: rest) acc =
  fold_left (fun acc c => 10 * acc + (Z.of_nat (nat_of_ascii c) - 48)) rest
            (10 * acc + (Z.of_nat (nat_of_ascii c) - 48)).
Proof. reflexivity. Qed.

Lemma decimal_value_grows (l : list ascii) (acc : Z) :
  forallb is_decimal_digit l -> 0 <= acc ->
  acc <= fold_left (fun acc c => 10 * acc + (Z.of_nat (nat_of_ascii c) - 48)) l acc.
Proof.
  revert acc. induction l as [|c l IH]; intros acc Hall Hacc; [simpl; lia|].
  simpl in Hall. apply andb_True in Hall as [Hc Hall].
  destruct (decimal_digit_readings c Hc) as (_ & _ & Hd & _).
  rewrite decimal_value_step.
  specialize (IH (10 * acc + (Z.of_nat (nat_of_ascii c) - 48)) Hall). lia.
Qed.

Lemma parse_digits_plain (s : string) (acc : Z) :
  forallb is_decimal_digit (list_ascii_of_string s) ->
  JS.parse_digits 10 (Some acc) s =
    Some (fold_left (fun acc c => 10 * acc + (Z.of_nat (nat_of_ascii c) - 48))
                    (list_ascii_of_string s) acc).
Proof.
  revert acc. induction s as [|c s IH]; intros acc Hall; [done|].
  cbn [list_ascii_of_string forallb] in Hall. apply andb_True in Hall as [Hc Hall].
  destruct (decimal_digit_readings c Hc) as (Hjs & _).
  cbn [JS.parse_digits list_ascii_of_string]. rewrite Hjs, decimal_value_step.
  by apply IH.
Qed.

Lemma read_digits_plain (s : string) (first : bool) (acc : Z) :
  forallb is_decimal_digit (list_ascii_of_string s) ->
  (first -> s ≠ EmptyString) -> 0 <= acc ->
  fold_left (fun acc c => 10 * acc + (Z.of_nat (nat_of_ascii c) - 48))
            (list_ascii_of_string s) acc <= 2 ^ 31 - 1 ->
  Pg.read_digits 10 first acc s =
    inr (fold_left (fun acc c => 10 * acc + (Z.of_nat (nat_of_ascii c) - 48))
                   (list_ascii_of_string s) acc, EmptyString).
Proof.
  revert first acc. induction s as [|c s IH]; intros first acc Hall Hfirst Hacc Hmax.
  - destruct first; [by destruct Hfirst|done].
  - cbn [list_ascii_of_string forallb] in Hall. apply andb_True in Hall as [Hc Hall].
    destruct (decimal_digit_readings c Hc) as (_ & Hpg & Hd & _).
    cbn [list_ascii_of_string] in Hmax |- *. rewrite decimal_value_step in Hmax |- *.
    pose proof (decimal_value_grows (list_ascii_of_string s)
                  (10 * acc + (Z.of_nat (nat_of_ascii c) - 48)) Hall) as Hgrow.
    cbn [Pg.read_digits]. rewrite Hpg.
    change (2 ^ 31 / 10) with 214748364.
    destruct (Z.ltb_spec 214748364 acc); [lia|].
    apply IH; [done|done|lia|done].
Qed.

(** A year written in plain decimal digits is read alike by [parseInt] and
    by the database, as long as it fits 32 bits. *)
Lemma plain_digits_readings (s : string) :
  plain_digits s -> decimal_value s <= 2 ^ 31 - 1 ->
  JS.parseInt (Some (QString s)) = Int (decimal_value s) ∧
  Pg.integer_literal s = Pg.Accepted (decimal_value s).
Proof.
  unfold plain_digits, decimal_value. intros H Hmax.
  apply andb_True in H as [Hne Hall].
  destruct s as [|c s]; [done|].
  pose proof Hall as Hall'.
  cbn [list_ascii_of_string forallb] in Hall'. apply andb_True in Hall' as [Hc Hrest].
  destruct (decimal_digit_readings c Hc)
    as (Hjs & Hpg & Hd & Hw & Hsp & Hminus & Hplus & _ & _).
  assert (Hvalue : 0 <= fold_left (fun acc c => 10 * acc + (Z.of_nat (nat_of_ascii c) - 48))
                         (list_ascii_of_string (String c s)) 0).
  { by apply decimal_value_grows. }
  split.
  - unfold JS.parseInt, JS.parseInt_string. cbn [JS.ToString JS.ToString_defined JS.trim_start].
    rewrite Hw. unfold JS.read_sign. rewrite Hminus, Hplus.
    assert (JS.read_radix (String c s) = (10, String c s)) as ->.
    { unfold JS.read_radix. destruct s as [|c2 s]; [done|].
      cbn [list_ascii_of_string forallb] in Hrest. apply andb_True in Hrest as [Hc2 _].
      destruct (decimal_digit_readings c2 Hc2) as (_ & _ & _ & _ & _ & _ & _ & _ & -> & _).
      by rewrite andb_false_r. }
    cbn [JS.parse_digits]. rewrite Hjs. cbn [default].
    rewrite (parse_digits_plain s _ Hrest).
    cbn [list_ascii_of_string] in Hmax, Hvalue |- *.
    rewrite decimal_value_step in Hmax, Hvalue |- *.
    rewrite Z.mul_1_l. apply to_number_small.
    assert (2 ^ 31 - 1 < 2 ^ 53) by done. lia.
  - unfold Pg.integer_literal. cbn [Pg.skip_spaces]. rewrite Hsp.
    unfold Pg.take_sign. rewrite Hminus, Hplus.
    assert (Pg.take_radix (String c s) = (10, String c s)) as ->.
    { unfold Pg.take_radix. destruct s as [|c2 s]; [done|].
      cbn [list_ascii_of_string forallb] in Hrest. apply andb_True in Hrest as [Hc2 _].
      destruct (decimal_digit_readings c2 Hc2)
        as (_ & _ & _ & _ & _ & _ & _ & _ & -> & -> & ->).
      by destruct (Ascii.eqb c "0"). }
    rewrite (read_digits_plain (String c s) true 0 Hall); [|done|done|done].
    cbn [Pg.skip_spaces]. rewrite decide_True by done.
    set (v := fold_left _ _ 0) in *.
    destruct (Z.leb_spec (- 2 ^ 31) v); [|lia].
    destruct (Z.leb_spec v (2 ^ 31 - 1)); [done|lia].
Qed.

(** X11: years written the plain way work as documented.  When
    [request.query.min] and [request.query.max] are strings of decimal
    digits and nothing else, spelling integers [lo <= hi] that fit 32 bits,
    [parseInt] and the database read them alike: the answer is 200, the
    rows removed are exactly those with a year in [lo..hi] (the two bounds
    may be equal), [deletedCount] is their number, and the other rows stay
    in their order. *)
Theorem delete_by_range_plain_years (request : Request) (low high : string)
    (books : Table) :
  query request !! "min" = Some (QString low) ->
  query request !! "max" = Some (QString high) ->
  plain_digits low -> plain_digits high ->
  decimal_value low <= decimal_value high <= 2 ^ 31 - 1 ->
  valid_range request (decimal_value low) (decimal_value high) ∧
  serve Pg.query (delete_by_range request) books =
    ({| response :=
          {| status := 200;
             body := DeletedBody "Books successfully deleted"
                       (length (filter (Pg.year_within (decimal_value low)
                                                       (decimal_value high)) books)) |};
        console := [] |},
     filter (fun book => ¬ Pg.year_within (decimal_value low) (decimal_value high) book)
            books).
Proof.
  intros Hmin Hmax Hlow Hhigh [Hle Hfit].
  destruct (plain_digits_readings low Hlow) as [Hjlo Hplo]; [lia|].
  destruct (plain_digits_readings high Hhigh) as [Hjhi Hphi]; [lia|].
  assert (Hvalid : valid_range request (decimal_value low) (decimal_value high)).
  { unfold valid_range. by rewrite Hmin, Hmax. }
  split; [done|].
  apply (delete_by_range_removes_range Pg.integer_literal request).
  - by apply (valid_range_passes request (decimal_value low) (decimal_value high)).
  - rewrite Hmin. simpl. by rewrite Hplo.
  - rewrite Hmax. simpl. by rewrite Hphi.
Qed.

Lemma delete_by_range_plain_years_witness :
  serve Pg.query
    (delete_by_range (request_with [("min", QString "1996"); ("max", QString "1996")]))
    sample_books =
    ({| response := {| status := 200;
                       body := DeletedBody "Books successfully deleted" 1 |};
        console := [] |},
     [hunger_games; jurassic_park]).
Proof.
  assert (Hfit : decimal_value "1996" <= decimal_value "1996" <= 2 ^ 31 - 1).
  { vm_compute. split; discriminate. }
  pose proof (proj2 (delete_by_range_plain_years
    (request_with [("min", QString "1996"); ("max", QString "1996")])
    "1996" "1996" sample_books eq_refl eq_refl I I Hfit)) as H.
  rewrite H. vm_compute. reflexivity.
Defined.

(** ** A delete followed by a read *)

(** X14: a read after a delete sees the delete, however the database
    reads text as integers.  When a [delete_by_range] request that passes
    validation, and whose raw bounds the database reads as [a] and [b], has
    been served, and a [get_by_rating] request that validates to [r] is
    served next, no remaining row has a year in [a..b] and the answer lists
    exactly the rows that a read before the delete would have listed, less
    those with a year in [a..b]; it is 404 when none is left. *)
Theorem read_after_delete (input : string -> Pg.Parsed) (deletion reading : Request)
    (a b r : Z) (books : Table) :
  range_passes deletion ->
  Pg.integer_param_with input (PQuery (query deletion !! "min")) = Pg.Value a ->
  Pg.integer_param_with input (PQuery (query deletion !! "max")) = Pg.Value b ->
  valid_rating reading r ->
  let before := filter (Pg.floor_rating_is r) books in
  let after := filter (fun book => ¬ Pg.year_within a b book) before in
  let remaining := (serve (Pg.query_with input) (delete_by_range deletion) books).2 in
  Forall (fun book => ¬ Pg.year_within a b book) remaining ∧
  serve (Pg.query_with input) (get_by_rating reading) remaining =
    ({| response :=
          if decide (after = [])
          then {| status := 404; body := MessageBody "No books found with that rating." |}
          else {| status := 200; body := BooksBody (formatBooks after) |};
        console := [] |}, remaining).
Proof.
  intros Hpass Ha Hb Hvalid before after remaining.
  assert (remaining = filter (fun book => ¬ Pg.year_within a b book) books) as Hrem.
  { subst remaining.
    by rewrite (proj1 (delete_by_range_removes_range input deletion a b books Hpass Ha Hb)). }
  split.
  { rewrite Hrem. apply Forall_forall. intros book Hin.
    by apply list_elem_of_filter in Hin as [? _]. }
  rewrite (get_by_rating_valid reading r Hvalid).
  unfold serve, Pg.query_with. rewrite decide_True by done. cbn [Pg.integer_param_with].
  assert (filter (Pg.floor_rating_is r) remaining = after) as ->.
  { subst after before. rewrite Hrem, !list_filter_filter.
    apply list_filter_iff. tauto. }
  destruct after; by simpl.
Qed.

Lemma read_after_delete_witness :
  serve Pg.query (get_by_rating (request_with [("rating", QString "4")]))
    (serve Pg.query
       (delete_by_range (request_with [("min", QString "1990"); ("max", QString "2000")]))
       sample_books).2 =
    ({| response := {| status := 200; body := BooksBody (formatBooks [hunger_games]) |};
        console := [] |},
     [hunger_games]).
Proof.
  assert (Hvalid : valid_rating (request_with [("rating", QString "4")]) 4).
  { unfold valid_rating. split; [reflexivity|]. split; [reflexivity|lia]. }
  assert (Hpass : range_passes
            (request_with [("min", QString "1990"); ("max", QString "2000")])).
  { unfold range_passes. split; [reflexivity|]. split; reflexivity. }
  pose proof (proj2 (read_after_delete Pg.integer_literal
    (request_with [("min", QString "1990"); ("max", QString "2000")])
    (request_with [("rating", QString "4")]) 1990 2000 4 sample_books
    Hpass eq_refl eq_refl Hvalid)) as H.
  unfold Pg.query. rewrite H. vm_compute. reflexivity.
Defined.
